(** * The aircraft ingestion pipeline of [bdi_api]

    A shallow embedding of [bdi_api/s1/exercise.py] and
    [bdi_api/s4/exercise.py]: the Fetcher ([download_data]), the
    Flattener/Loader ([prepare_data]) and the Query Service
    ([list_aircraft], [get_aircraft_position], [get_aircraft_statistics]).

    The Python functions run against a file system, an S3 bucket, an HTTP
    source and a DuckDB database.  Each of them is a collaborator of the
    code; the embedding threads its state explicitly (a "world") and takes
    the ways a collaborator call can raise as fields of a record of
    faults, so that every [try]/[except] of the source has both of its
    branches in the model.  The SQL statements are embedded by their
    relational meaning: [WHERE] is a filter, [GROUP BY] a grouping on the
    distinct keys, [ORDER BY] a sort, [LIMIT]/[OFFSET] a slice. *)

From Stdlib Require Import ZArith Floats Ascii String.
From stdpp Require Import gmap strings list sorting pretty.

(** ** Results of a Python call *)

(** A call either returns a value or raises an exception (an instance of
    [Exception]; the handlers of the source are all [except Exception] or
    wider than the errors modelled here). *)
Inductive outcome (A : Type) : Type :=
| Returned (a : A)
| Raised.
Arguments Returned {A} a.
Arguments Raised {A}.

(** [try: body except Exception: return handler]. *)
Definition try_except {A : Type} (body : outcome A) (handler : A) : outcome A :=
  match body with
  | Returned a => Returned a
  | Raised => Returned handler
  end.

(** ** SQL values and operators *)

(** A nullable column is an [option]; [None] is SQL's [NULL]. *)

Section sql.
Context {A : Type} (le : relation A) `{!RelDecision le}.

(** [ORDER BY k ASC] compares non-null keys by [le] and puts [NULL] last
    (DuckDB's default null order). *)
Definition nulls_last (x y : option A) : Prop :=
  match x, y with
  | _, None => True
  | None, Some _ => False
  | Some a, Some b => le a b
  end.

#[global] Instance nulls_last_dec : RelDecision nulls_last.
Proof. intros [a|] [b|]; simpl; apply _. Defined.

(** The larger of two non-null values. *)
Definition greater (a b : A) : A := if decide (le a b) then b else a.

(** [MAX(c)]: the greatest non-null value of the column, [NULL] when there
    is none. *)
Definition sql_max (column : list (option A)) : option A :=
  foldr (λ x acc,
           match x, acc with
           | Some a, Some b => Some (greater a b)
           | Some a, None => Some a
           | None, _ => acc
           end) None column.

End sql.

(** [BOOL_OR(c)]: true when some non-null value is true, [NULL] when the
    column has no non-null value. *)
Definition bool_or (column : list (option bool)) : option bool :=
  foldr (λ x acc,
           match x, acc with
           | Some a, Some b => Some (a || b)
           | Some a, None => Some a
           | None, _ => acc
           end) None column.

(** Three-valued conditions: [x IS NOT NULL], [x != y] and [a AND b]. *)
Definition is_not_null {A : Type} (x : option A) : option bool :=
  Some (bool_decide (is_Some x)).

Definition sql_neq {A : Type} `{EqDecision A} (x y : option A) : option bool :=
  match x, y with
  | Some a, Some b => Some (bool_decide (a ≠ b))
  | _, _ => None
  end.

Definition sql_and (a b : option bool) : option bool :=
  match a, b with
  | Some false, _ | _, Some false => Some false
  | Some true, Some true => Some true
  | _, _ => None
  end.

(** [ORDER BY k1, k2]: rows compare by [k1], and by [k2] where [k1] ties. *)
Definition then_by {R : Type} (le1 le2 : relation R) : relation R :=
  λ x y, le1 x y ∧ (le1 y x → le2 x y).

#[global] Instance then_by_dec {R : Type} (le1 le2 : relation R)
  `{!RelDecision le1, !RelDecision le2} : RelDecision (then_by le1 le2).
Proof. intros x y. unfold then_by. apply _. Defined.

(** [LIMIT n OFFSET k] with non-negative [n] and [k]. *)
Definition limit_offset {R : Type} (n k : nat) (rows : list R) : list R :=
  take n (drop k rows).

(** The order of DOUBLE values; JSON has no NaN. *)
Definition float_le (x y : float) : Prop := PrimFloat.leb x y = true.

#[global] Instance float_le_dec : RelDecision float_le.
Proof. intros x y. unfold float_le. apply _. Defined.

(** ** The raw documents *)

(** [alt_baro] is a number of feet or the string ["ground"]. *)
Inductive alt_value : Type :=
| AltInt (n : Z)
| AltStr (s : string).

(** One element of a document's [aircraft] array, by its JSON keys.  A key
    that is absent or [null] reads as [None]. *)
Module Obs.
Record observation : Type := {
  hex : option string;
  r : option string;
  t : option string;
  lat : option float;
  lon : option float;
  alt_baro : option alt_value;
  gs : option float;
  emergency : option string
}.
End Obs.

(** A snapshot document: [{"now": ..., "aircraft": [...]}]. *)
Record document : Type := {
  now : option Z;
  aircraft : option (list Obs.observation)
}.

(** The content of a raw file as [read_json] meets it: a JSON document, or
    bytes that do not parse.  A file without any record (a zero-byte file)
    parses: [read_json] reads no record from it, which amounts to the
    document without keys, [{| now := None; aircraft := None |}]: neither
    adds a row or a column. *)
Inductive raw_file : Type :=
| Malformed
| Json (doc : document).

(** ** The tables *)

(** The temporary table [raw_data_expanded]. *)
Module RawData.
Record row : Type := {
  doc_timestamp : option Z;
  hex : option string;
  r : option string;
  t : option string;
  lat : option float;
  lon : option float;
  alt_baro : option alt_value;
  gs : option float;
  emergency : option string
}.
End RawData.

(** The table [aircraft]. *)
Module Aircraft.
Record row : Type := {
  icao : option string;
  registration : option string;
  type : option string
}.
End Aircraft.

(** The table [positions]. *)
Module Positions.
Record row : Type := {
  icao : option string;
  timestamp : option Z;
  lat : option float;
  lon : option float;
  altitude_baro : option Z;
  ground_speed : option float;
  emergency : option string
}.
End Positions.

(** The database file [aircraft.db]: its two tables, when they exist, and
    the names of its indexes. *)
Record database : Type := {
  tbl_aircraft : option (list Aircraft.row);
  tbl_positions : option (list Positions.row);
  indexes : gset string
}.

Definition empty_database : database :=
  {| tbl_aircraft := None; tbl_positions := None; indexes := ∅ |}.

(** ** Strings and paths *)

(** [s.endswith(suffix)]. *)
Definition endswith (s suffix : string) : bool :=
  let n := String.length s in
  let m := String.length suffix in
  if decide (m ≤ n) then bool_decide (String.substring (n - m) m s = suffix) else false.

(** [os.path.basename(p)]: what follows the last ["/"]. *)
Fixpoint basename_from (cur p : string) : string :=
  match p with
  | EmptyString => cur
  | String c rest =>
      if decide (c = "/"%char) then basename_from "" rest
      else basename_from (cur +:+ String c "") rest
  end.

Definition basename (p : string) : string := basename_from "" p.

(** The names of a directory (or the keys of a bucket) in ascending
    order: [sorted(os.listdir(d))], and the order in which a glob and an
    S3 listing enumerate. *)
Definition sorted_names {C : Type} (d : gmap string C) : list string :=
  merge_sort String.le (map_to_list d).*1.

(** The names matching [*.json.gz]. *)
Definition json_files {C : Type} (d : gmap string C) : list string :=
  filter (λ f, endswith f ".json.gz" = true) (sorted_names d).

(** The files a glob [<dir>/*.json.gz] reads, in the order of their names. *)
Definition glob_json_gz {C : Type} (d : gmap string C) : list C :=
  omap (λ f, d !! f) (json_files d).

(** ** The Loader's statements *)

(** What the collaborators of the Loader and of the Query Service may do
    to them:
    - [remove_fails]: [os.remove(db_path)] raises (the error is
      swallowed and the old file stays);
    - [list_objects_fails]: [list_objects_v2] raises;
    - [download_fails key]: [download_file] raises on that key;
    - [connect_fails]: [duckdb.connect] raises;
    - [execute_fails n]: the [n]-th [conn.execute] of a run raises for a
      reason of the store (the file is unwritable, the disk is full);
    - [binds docs]: the schema that [read_json] infers from the documents
      has the columns the first statement names ([json.now],
      [json.aircraft] and the seven keys given to [struct_extract]); DuckDB
      raises a binder error when it has not, as when no document has an
      [aircraft] array ([needs_array] below).  The inference is DuckDB's
      own and is taken as given. *)
Record loader_env : Type := {
  remove_fails : bool;
  list_objects_fails : bool;
  download_fails : string → bool;
  connect_fails : bool;
  execute_fails : nat → bool;
  binds : list document → bool
}.

(** Code that runs on an open connection: it reads and writes the
    database, and may raise.  What was written before an exception
    stays written. *)
Definition db_action (A : Type) : Type := database → outcome A * database.

#[global] Instance db_ret : MRet db_action := λ A a db, (Returned a, db).

#[global] Instance db_bind : MBind db_action := λ A B f m db,
  match m db with
  | (Returned a, db') => f a db'
  | (Raised, db') => (Raised, db')
  end.

Definition db_raise {A : Type} : db_action A := λ db, (Raised, db).

(** The [n]-th [conn.execute(...)] of a run. *)
Definition execute {A : Type} (e : loader_env) (n : nat) (stmt : db_action A)
  : db_action A :=
  λ db, if execute_fails e n then db_raise db else stmt db.

(** [read_json(pattern, ...)] with the default [ignore_errors = false]: a
    pattern that matches no file and a file that does not parse raise.
    The model keeps each value as the document spells it.  [read_json]
    types a column from the values it finds: strings that all spell
    UUIDs, dates, times or timestamps are stored in the spelling of that
    type, and integers of which one exceeds 64 bits as floating point.
    This typing is not modelled; [icaos_read_as_text] and
    [timestamps_read_as_integers] below describe values that it leaves as
    they are. *)
Fixpoint parse_all (files : list raw_file) : outcome (list document) :=
  match files with
  | [] => Returned []
  | Malformed :: _ => Raised
  | Json d :: rest =>
      match parse_all rest with
      | Returned ds => Returned (d :: ds)
      | Raised => Raised
      end
  end.

Definition read_json (files : list raw_file) : outcome (list document) :=
  match files with
  | [] => Raised
  | _ => parse_all files
  end.

(** [unnest(json.aircraft)]: one row per element; no row for a [NULL] or
    empty array. *)
Definition unnest (d : document) : list Obs.observation :=
  default [] (aircraft d).

(** The select list of the first statement.  The column [emergency] is
    [CAST(NULL AS VARCHAR)]. *)
Definition expand (d : document) (o : Obs.observation) : RawData.row :=
  {| RawData.doc_timestamp := now d;
     RawData.hex := Obs.hex o;
     RawData.r := Obs.r o;
     RawData.t := Obs.t o;
     RawData.lat := Obs.lat o;
     RawData.lon := Obs.lon o;
     RawData.alt_baro := Obs.alt_baro o;
     RawData.gs := Obs.gs o;
     RawData.emergency := None |}.

Definition raw_data_expanded (docs : list document) : list RawData.row :=
  d ← docs; expand d <$> unnest d.

(** [CREATE TEMP TABLE raw_data_expanded AS SELECT ... FROM read_json(?)].
    The table lives in the connection; it is handed to the statements
    that read it. *)
Definition create_raw_data_expanded (e : loader_env) (files : list raw_file)
  : db_action (list RawData.row) :=
  λ db,
    match read_json files with
    | Raised => db_raise db
    | Returned docs =>
        if binds e docs then (Returned (raw_data_expanded docs), db)
        else db_raise db
    end.

(** [GROUP BY key]: the distinct keys, each with its rows. *)
Definition group_by {R K : Type} `{EqDecision K} (key : R → K) (rows : list R)
  : list (K * list R) :=
  (λ k, (k, filter (λ x, key x = k) rows)) <$> remove_dups (key <$> rows).

Definition by_icao : relation Aircraft.row :=
  λ a b, nulls_last String.le (Aircraft.icao a) (Aircraft.icao b).

#[global] Instance by_icao_dec : RelDecision by_icao.
Proof. intros a b. unfold by_icao. apply _. Defined.

(** [SELECT hex as icao, MAX(r) FILTER (WHERE r IS NOT NULL) as registration,
    MAX(t) FILTER (WHERE t IS NOT NULL) as type FROM raw_data_expanded
    WHERE hex IS NOT NULL GROUP BY hex ORDER BY hex]. *)
Definition select_aircraft (rows : list RawData.row) : list Aircraft.row :=
  let kept := filter (λ x, is_Some (RawData.hex x)) rows in
  let grouped :=
    (λ g : option string * list RawData.row,
       {| Aircraft.icao := g.1;
          Aircraft.registration :=
            sql_max String.le
              (RawData.r <$> filter (λ x, is_Some (RawData.r x)) g.2);
          Aircraft.type :=
            sql_max String.le
              (RawData.t <$> filter (λ x, is_Some (RawData.t x)) g.2) |})
      <$> group_by RawData.hex kept in
  merge_sort by_icao grouped.

(** [TRY_CAST(alt_baro AS INTEGER)]: the 32-bit integer the value denotes,
    [NULL] when it denotes none.  Strings are read as an optional sign
    followed by decimal digits.  DuckDB reads more spellings of a number
    (blanks around it, a fraction or an exponent, which it rounds, the
    prefixes [0x] and [0b], [_] between digits), and in a column typed
    JSON it casts the JSON text of a string, quotes included.  The model
    is exact on numbers and on strings without a digit, such as
    ["ground"]; on other strings the altitude it gives may differ from
    DuckDB's. *)
Fixpoint parse_digits (acc : Z) (s : string) : option Z :=
  match s with
  | EmptyString => Some acc
  | String c rest =>
      match Ascii.is_nat c with
      | Some n => parse_digits (10 * acc + Z.of_nat n) rest
      | None => None
      end
  end.

Definition parse_integer (s : string) : option Z :=
  match s with
  | EmptyString => None
  | String c rest =>
      if decide (c = "-"%char) then
        if decide (rest = "") then None else Z.opp <$> parse_digits 0 rest
      else if decide (c = "+"%char) then
        if decide (rest = "") then None else parse_digits 0 rest
      else parse_digits 0 s
  end.

Definition int32 (n : Z) : option Z :=
  if decide (-2147483648 ≤ n ≤ 2147483647)%Z then Some n else None.

Definition try_cast_integer (v : option alt_value) : option Z :=
  match v with
  | None => None
  | Some (AltInt n) => int32 n
  | Some (AltStr s) => parse_integer s ≫= int32
  end.

Definition by_hex : relation RawData.row :=
  λ a b, nulls_last String.le (RawData.hex a) (RawData.hex b).

Definition by_doc_timestamp : relation RawData.row :=
  λ a b, nulls_last Z.le (RawData.doc_timestamp a) (RawData.doc_timestamp b).

#[global] Instance by_hex_dec : RelDecision by_hex.
Proof. intros a b. unfold by_hex. apply _. Defined.

#[global] Instance by_doc_timestamp_dec : RelDecision by_doc_timestamp.
Proof. intros a b. unfold by_doc_timestamp. apply _. Defined.

(** The [WHERE] clause of the third statement. *)
Definition retained (x : RawData.row) : Prop :=
  is_Some (RawData.hex x) ∧ is_Some (RawData.lat x) ∧
  is_Some (RawData.lon x) ∧ is_Some (RawData.doc_timestamp x).

#[global] Instance retained_dec x : Decision (retained x).
Proof. unfold retained. apply _. Defined.

(** The select list of the third statement. *)
Definition position_of (x : RawData.row) : Positions.row :=
  {| Positions.icao := RawData.hex x;
     Positions.timestamp := RawData.doc_timestamp x;
     Positions.lat := RawData.lat x;
     Positions.lon := RawData.lon x;
     Positions.altitude_baro := try_cast_integer (RawData.alt_baro x);
     Positions.ground_speed := RawData.gs x;
     Positions.emergency := RawData.emergency x |}.

(** [SELECT hex as icao, doc_timestamp as timestamp, lat, lon,
    TRY_CAST(alt_baro AS INTEGER) as altitude_baro, gs as ground_speed,
    emergency FROM raw_data_expanded WHERE hex IS NOT NULL AND lat IS NOT
    NULL AND lon IS NOT NULL AND doc_timestamp IS NOT NULL
    ORDER BY hex, doc_timestamp]. *)
Definition select_positions (rows : list RawData.row) : list Positions.row :=
  position_of <$> merge_sort (then_by by_hex by_doc_timestamp) (filter retained rows).

(** [CREATE TABLE aircraft AS ...]: raises when the table exists. *)
Definition create_table_aircraft (rows : list Aircraft.row) : db_action () :=
  λ db,
    match tbl_aircraft db with
    | Some _ => db_raise db
    | None =>
        (Returned (),
         {| tbl_aircraft := Some rows;
            tbl_positions := tbl_positions db;
            indexes := indexes db |})
    end.

(** [CREATE TABLE positions AS ...]. *)
Definition create_table_positions (rows : list Positions.row) : db_action () :=
  λ db,
    match tbl_positions db with
    | Some _ => db_raise db
    | None =>
        (Returned (),
         {| tbl_aircraft := tbl_aircraft db;
            tbl_positions := Some rows;
            indexes := indexes db |})
    end.

(** [CREATE INDEX name ON table(...)]: raises when the table is missing
    or an index of that name exists. *)
Definition create_index (name : string) (table : database → bool) : db_action () :=
  λ db,
    if table db && bool_decide (name ∉ indexes db) then
      (Returned (),
       {| tbl_aircraft := tbl_aircraft db;
          tbl_positions := tbl_positions db;
          indexes := {[name]} ∪ indexes db |})
    else db_raise db.

Definition has_aircraft (db : database) : bool := bool_decide (is_Some (tbl_aircraft db)).
Definition has_positions (db : database) : bool := bool_decide (is_Some (tbl_positions db)).

(** The body of the [try] of [prepare_data], the same six statements in
    [s1] and in [s4]. *)
Definition build_tables (e : loader_env) (files : list raw_file) : db_action () :=
  rows ← execute e 1 (create_raw_data_expanded e files);
  execute e 2 (create_table_aircraft (select_aircraft rows));;
  execute e 3 (create_table_positions (select_positions rows));;
  execute e 4 (create_index "idx_aircraft_icao" has_aircraft);;
  execute e 5 (create_index "idx_positions_icao" has_positions);;
  execute e 6 (create_index "idx_positions_timestamp" has_positions).

(** [os.path.exists(db_path)] then [os.remove(db_path)], the error
    swallowed: what is left of the previous database file. *)
Definition remove_database (e : loader_env) (db : option database) : option database :=
  match db with
  | Some old => if remove_fails e then Some old else None
  | None => None
  end.

(** [conn = duckdb.connect(db_path)] followed by the [try] block: the
    connection opens the file that is there or creates an empty one; an
    exception of the block closes the connection and is raised again.
    Each statement commits on its own, so the file keeps what the
    statements before the failing one wrote. *)
Definition connect_and_build (e : loader_env) (files : list raw_file)
    (db : option database) : outcome string * option database :=
  if connect_fails e then (Raised, db)
  else
    match build_tables e files (default empty_database db) with
    | (Returned _, db') => (Returned "OK", Some db')
    | (Raised, db') => (Raised, Some db')
    end.

(** The end of [prepare_data], the same in [s1] (on the raw directory)
    and in [s4] (on the temporary directory): nothing to do without a
    [.json.gz] file, else the tables are built from what the glob reads. *)
Definition load_directory (e : loader_env) (dir : gmap string raw_file)
    (db : option database) : outcome string * option database :=
  if decide (json_files dir = []) then (Returned "OK", db)
  else connect_and_build e (glob_json_gz dir) db.

(** The documents of a directory that [read_json] parses, and their
    observations. *)
Definition document_of (f : raw_file) : option document :=
  match f with
  | Json d => Some d
  | Malformed => None
  end.

Definition documents (dir : gmap string raw_file) : list document :=
  omap document_of (glob_json_gz dir).

Definition observations (dir : gmap string raw_file) : list Obs.observation :=
  d ← documents dir; unnest d.

(** The derived relations as a reader finds them: empty when the file or
    the table does not exist. *)
Definition aircraft_relation (db : option database) : list Aircraft.row :=
  default [] (db ≫= tbl_aircraft).

Definition position_relation (db : option database) : list Positions.row :=
  default [] (db ≫= tbl_positions).

(** ** The Fetcher's collaborators *)

(** What [requests.get] returns.  The content is the body's bytes, told
    apart by what [read_json] will make of them. *)
Record response : Type := {
  status_code : Z;
  content : raw_file
}.

(** What the Fetcher's collaborators may do to it:
    - [source_url]: the setting [settings.source_url];
    - [requests_get url]: the outcome of [requests.get(url, timeout=30)];
    - [unlink_fails name]: [os.remove] raises on that file of the
      download directory;
    - [open_fails name]: opening that file for writing raises, and no
      file is left;
    - [list_fails], [delete_objects_fails]: the listing and the deletion
      of the cleaning step of [s4] raise;
    - [put_object_fails key]: [put_object] raises on that key, and no
      object is left. *)
Record fetcher_env : Type := {
  source_url : string;
  requests_get : string → outcome response;
  unlink_fails : string → bool;
  open_fails : string → bool;
  list_fails : bool;
  delete_objects_fails : bool;
  put_object_fails : string → bool
}.

(** [f"{hour:02d}"]. *)
Definition two_digits (hour : nat) : string :=
  let s := pretty hour in
  if decide (String.length s < 2) then "0" +:+ s else s.

(** [[f"{hour:02d}0000Z.json.gz" for hour in range(24)]]. *)
Definition filenames : list string :=
  (λ hour, two_digits hour +:+ "0000Z.json.gz") <$> seq 0 24.

(** The download loop of [download_data], the same in [s1] and [s4] but
    for the call that stores the content ([put]): it carries the counter
    [files_downloaded] and the store. *)
Section download_loop.
Context {St : Type} (e : fetcher_env) (put : St → string → raw_file → outcome St).
Context (file_limit : Z).

Fixpoint download_loop (names : list string) (files_downloaded : Z) (store : St)
  : Z * St :=
  match names with
  | [] => (files_downloaded, store)
  | filename :: rest =>
      if decide (file_limit ≤ files_downloaded)%Z then (files_downloaded, store)
      else
        let file_url := source_url e +:+ "/2023/11/01/" +:+ filename in
        match requests_get e file_url with
        | Returned resp =>
            if decide (status_code resp = 200%Z) then
              match put store filename (content resp) with
              | Returned store' => download_loop rest (files_downloaded + 1)%Z store'
              | Raised => download_loop rest files_downloaded store
              end
            else download_loop rest files_downloaded store
        | Raised => download_loop rest files_downloaded store
        end
  end.

End download_loop.

(** The S3 prefix of the partition. *)
Definition s3_prefix : string := "raw/day=20231101/".

(** [list_objects_v2(Bucket, Prefix)['Contents']]: the keys under the
    prefix in ascending order, at most 1000 of them; the response has no
    ['Contents'] when there is none. *)
Definition list_objects_v2 {C : Type} (bucket : gmap string C) (prefix : string)
  : list string :=
  take 1000 (filter (λ k, String.prefix prefix k = true) (sorted_names bucket)).

(** ** The queries of the Query Service *)

(** The dictionaries the endpoints return.  [list_aircraft] returns the
    keys ["icao"], ["registration"] and ["type"], the columns of an
    [Aircraft.row]. *)
Record position_dict : Type := {
  pd_timestamp : option Z;
  pd_lat : option float;
  pd_lon : option float
}.

Record statistics : Type := {
  max_altitude_baro : option Z;
  max_ground_speed : option float;
  had_emergency : bool
}.

Definition no_statistics : statistics :=
  {| max_altitude_baro := None; max_ground_speed := None; had_emergency := false |}.

(** [conn = duckdb.connect(db_path, read_only=True)] and one
    [conn.execute(...)] on it. *)
Definition connect_and_query {A : Type} (e : loader_env) (db : database)
    (query : database → outcome A) : outcome A :=
  if connect_fails e then Raised
  else if execute_fails e 1 then Raised
  else query db.

(** The greatest value DuckDB takes for a [LIMIT] and for an [OFFSET]
    ([MAX_LIMIT_VALUE], [1 << 62]). *)
Definition max_limit_value : Z := 2 ^ 62.

(** [LIMIT ? OFFSET ?] bound to two Python integers.  Both parameters
    are 64-bit integers of the engine: DuckDB raises on a negative one,
    on one above [max_limit_value], and on a Python integer that does not
    fit 64 bits. *)
Definition page_of {R : Type} (num_results offset : Z) (rows : list R)
  : outcome (list R) :=
  if decide ((0 ≤ num_results ≤ max_limit_value) ∧ (0 ≤ offset ≤ max_limit_value))%Z
  then Returned (limit_offset (Z.to_nat num_results) (Z.to_nat offset) rows)
  else Raised.

(** [SELECT icao, registration, type FROM aircraft WHERE icao IS NOT NULL
    ORDER BY icao ASC LIMIT ? OFFSET ?]; a missing table raises. *)
Definition select_aircraft_page (num_results offset : Z) (db : database)
  : outcome (list Aircraft.row) :=
  match tbl_aircraft db with
  | None => Raised
  | Some rows =>
      page_of num_results offset
        (merge_sort by_icao (filter (λ x, is_Some (Aircraft.icao x)) rows))
  end.

Definition by_timestamp : relation Positions.row :=
  λ a b, nulls_last Z.le (Positions.timestamp a) (Positions.timestamp b).

#[global] Instance by_timestamp_dec : RelDecision by_timestamp.
Proof. intros a b. unfold by_timestamp. apply _. Defined.

(** [SELECT timestamp, lat, lon FROM positions WHERE icao = ? AND lat IS
    NOT NULL AND lon IS NOT NULL ORDER BY timestamp ASC LIMIT ? OFFSET ?]. *)
Definition select_positions_page (icao : string) (num_results offset : Z)
    (db : database) : outcome (list position_dict) :=
  match tbl_positions db with
  | None => Raised
  | Some rows =>
      page_of num_results offset
        ((λ x, {| pd_timestamp := Positions.timestamp x;
                  pd_lat := Positions.lat x;
                  pd_lon := Positions.lon x |})
           <$> merge_sort by_timestamp
                 (filter (λ x, Positions.icao x = Some icao ∧
                               is_Some (Positions.lat x) ∧
                               is_Some (Positions.lon x)) rows))
  end.

(** [emergency IS NOT NULL AND emergency != '']. *)
Definition emergency_condition (x : Positions.row) : option bool :=
  sql_and (is_not_null (Positions.emergency x))
          (sql_neq (Positions.emergency x) (Some ""%string)).

(** [SELECT MAX(altitude_baro), MAX(ground_speed), BOOL_OR(emergency IS NOT
    NULL AND emergency != '') FROM positions WHERE icao = ?] and
    [fetchone()]: an aggregate without [GROUP BY] has one row. *)
Definition select_statistics (icao : string) (db : database)
  : outcome (option (option Z * option float * option bool)) :=
  match tbl_positions db with
  | None => Raised
  | Some rows =>
      let selected := filter (λ x, Positions.icao x = Some icao) rows in
      Returned (Some (sql_max Z.le (Positions.altitude_baro <$> selected),
                      sql_max float_le (Positions.ground_speed <$> selected),
                      bool_or (emergency_condition <$> selected)))
  end.

(** ** [bdi_api/s1/exercise.py] *)

Module S1.

(** What the endpoints touch: the directory [raw_dir/day=20231101]
    ([None] when it does not exist) and the file [prepared_dir/aircraft.db]
    ([None] when it does not exist). *)
Record world : Type := {
  raw_dir : option (gmap string raw_file);
  prepared_db : option database
}.

(** [with open(file_path, 'wb') as f: f.write(response.content)]. *)
Definition write_file (e : fetcher_env) (dir : gmap string raw_file)
    (filename : string) (c : raw_file) : outcome (gmap string raw_file) :=
  if open_fails e filename then Raised else Returned (<[filename := c]> dir).

(** The cleaning loop: a file stays when [os.remove] raises on it. *)
Definition clean (e : fetcher_env) (dir : gmap string raw_file)
  : gmap string raw_file :=
  filter (λ entry, unlink_fails e entry.1 = true) dir.

(** The state of [download_data] when its loop ends: the counter
    [files_downloaded] and the download directory.  [os.makedirs] has
    created the directory if it was missing. *)
Definition downloaded (e : fetcher_env) (w : world) (file_limit : Z)
  : Z * gmap string raw_file :=
  let download_dir := default ∅ (raw_dir w) in
  download_loop e (write_file e) file_limit filenames 0%Z (clean e download_dir).

Definition download_data (e : fetcher_env) (w : world) (file_limit : Z)
  : outcome string * world :=
  (Returned "OK",
   {| raw_dir := Some (downloaded e w file_limit).2; prepared_db := prepared_db w |}).

Definition prepare_data (e : loader_env) (w : world) : outcome string * world :=
  let db := remove_database e (prepared_db w) in
  match raw_dir w with
  | None => (Returned "OK", {| raw_dir := raw_dir w; prepared_db := db |})
  | Some dir =>
      let loaded := load_directory e dir db in
      (loaded.1, {| raw_dir := raw_dir w; prepared_db := loaded.2 |})
  end.

(** The directory a run of [prepare_data] reads. *)
Definition loaded_dir (w : world) : gmap string raw_file := default ∅ (raw_dir w).

(** The endpoint [GET /aircraft/]. *)
Definition list_aircraft (e : loader_env) (w : world) (num_results page : Z)
  : outcome (list Aircraft.row) :=
  match prepared_db w with
  | None => Returned []
  | Some db =>
      try_except
        (let offset := (page * num_results)%Z in
         connect_and_query e db (select_aircraft_page num_results offset))
        []
  end.

(** The endpoint [GET /aircraft/{icao}/positions]. *)
Definition get_aircraft_position (e : loader_env) (w : world) (icao : string)
    (num_results page : Z) : outcome (list position_dict) :=
  match prepared_db w with
  | None => Returned []
  | Some db =>
      try_except
        (let offset := (page * num_results)%Z in
         connect_and_query e db (select_positions_page icao num_results offset))
        []
  end.

(** The endpoint [GET /aircraft/{icao}/stats]: an exception is passed
    over, and so is an empty [result]; both fall through to the last
    [return]. *)
Definition get_aircraft_statistics (e : loader_env) (w : world) (icao : string)
  : outcome statistics :=
  match prepared_db w with
  | None => Returned no_statistics
  | Some db =>
      match connect_and_query e db (select_statistics icao) with
      | Returned (Some (max_alt, max_gs, emergency)) =>
          Returned {| max_altitude_baro := max_alt;
                      max_ground_speed := max_gs;
                      had_emergency :=
                        match emergency with
                        | Some b => b
                        | None => false
                        end |}
      | Returned None => Returned no_statistics
      | Raised => Returned no_statistics
      end
  end.

End S1.

(** ** [bdi_api/s4/exercise.py] *)

Module S4.

(** What the endpoints touch: the objects of the bucket and the file
    [prepared_dir/aircraft.db]. *)
Record world : Type := {
  bucket : gmap string raw_file;
  prepared_db : option database
}.

(** [s3_client.put_object(Bucket, Key = s3_prefix + filename, Body)]. *)
Definition put_object (e : fetcher_env) (b : gmap string raw_file)
    (filename : string) (c : raw_file) : outcome (gmap string raw_file) :=
  if put_object_fails e (s3_prefix +:+ filename) then Raised
  else Returned (<[s3_prefix +:+ filename := c]> b).

(** The cleaning [try]: the listed objects are deleted unless the listing
    or the deletion raises. *)
Definition clean (e : fetcher_env) (b : gmap string raw_file)
  : gmap string raw_file :=
  if list_fails e then b
  else
    match list_objects_v2 b s3_prefix with
    | [] => b
    | objects_to_delete =>
        if delete_objects_fails e then b
        else foldr delete b objects_to_delete
    end.

(** The state of [download_data] when its loop ends: the counter
    [files_downloaded] and the bucket. *)
Definition downloaded (e : fetcher_env) (w : world) (file_limit : Z)
  : Z * gmap string raw_file :=
  download_loop e (put_object e) file_limit filenames 0%Z (clean e (bucket w)).

Definition download_data (e : fetcher_env) (w : world) (file_limit : Z)
  : outcome string * world :=
  (Returned "OK",
   {| bucket := (downloaded e w file_limit).2; prepared_db := prepared_db w |}).

(** One turn of the loop that copies the objects into the temporary
    directory. *)
Definition download_file (e : loader_env) (b : gmap string raw_file)
    (temp_dir : gmap string raw_file) (s3_key : string) : gmap string raw_file :=
  if bool_decide (s3_key = s3_prefix) || negb (endswith s3_key ".json.gz") then temp_dir
  else if download_fails e s3_key then temp_dir
  else
    match b !! s3_key with
    | Some c => <[basename s3_key := c]> temp_dir
    | None => temp_dir
    end.

(** The temporary directory when the copying loop ends. *)
Definition temp_dir (e : loader_env) (b : gmap string raw_file)
    (contents : list string) : gmap string raw_file :=
  foldl (download_file e b) ∅ contents.

Definition prepare_data (e : loader_env) (w : world) : outcome string * world :=
  let db := remove_database e (prepared_db w) in
  if list_objects_fails e then
    (Returned "OK", {| bucket := bucket w; prepared_db := db |})
  else
    match list_objects_v2 (bucket w) s3_prefix with
    | [] => (Returned "OK", {| bucket := bucket w; prepared_db := db |})
    | contents =>
        let loaded := load_directory e (temp_dir e (bucket w) contents) db in
        (loaded.1, {| bucket := bucket w; prepared_db := loaded.2 |})
    end.

(** The directory a run of [prepare_data] reads: the temporary directory,
    empty when the listing raised. *)
Definition loaded_dir (e : loader_env) (w : world) : gmap string raw_file :=
  if list_objects_fails e then ∅
  else temp_dir e (bucket w) (list_objects_v2 (bucket w) s3_prefix).

End S4.

(** ** Runs and what they leave *)

(** A run of [prepare_data], of [s1] or of [s4]: the directory it reads,
    the database file it finds, its outcome and the database file it
    leaves.  The query endpoints of [s1] read the file either leaves. *)
Inductive prepare_run (e : loader_env)
  : gmap string raw_file → option database → outcome string → option database → Prop :=
| prepare_run_s1 (w w' : S1.world) (res : outcome string) :
    S1.prepare_data e w = (res, w') →
    prepare_run e (S1.loaded_dir w) (S1.prepared_db w) res (S1.prepared_db w')
| prepare_run_s4 (w w' : S4.world) (res : outcome string) :
    S4.prepare_data e w = (res, w') →
    prepare_run e (S4.loaded_dir e w) (S4.prepared_db w) res (S4.prepared_db w').


(** The indexes, in the order of their creation. *)
Definition index_names : list string :=
  ["idx_aircraft_icao"; "idx_positions_icao"; "idx_positions_timestamp"].

(** The database file after the first [k] of the six statements of
    [build_tables] ran on an empty file; [rows] is the temporary table. *)
Definition committed (k : nat) (rows : list RawData.row) : database :=
  {| tbl_aircraft := if decide (2 ≤ k) then Some (select_aircraft rows) else None;
     tbl_positions := if decide (3 ≤ k) then Some (select_positions rows) else None;
     indexes := list_to_set (take (k - 3) index_names) |}.

(** The first statement raises: by a fault of the store, on a file that
    does not parse, or on a schema without the expected columns. *)
Definition first_statement_fails (e : loader_env) (files : list raw_file) : Prop :=
  execute_fails e 1 = true ∨ read_json files = Raised ∨
  ∃ docs, read_json files = Returned docs ∧ binds e docs = false.

(** Both relations and the three indexes exist, or none of them does. *)
Definition all_or_nothing (db : option database) : Prop :=
  match db with
  | None => True
  | Some d =>
      (is_Some (tbl_aircraft d) ∧ is_Some (tbl_positions d) ∧
       ∀ i, i ∈ index_names → i ∈ indexes d) ∨
      (tbl_aircraft d = None ∧ tbl_positions d = None ∧ indexes d = ∅)
  end.

(** The slice a page shows, and the pages [0 .. k-1] put end to end. *)
Definition returned_rows {A : Type} (res : outcome (list A)) : list A :=
  match res with
  | Returned rows => rows
  | Raised => []
  end.

Definition first_pages (e : loader_env) (w : S1.world) (num_results : Z) (k : nat)
  : list Aircraft.row :=
  concat ((λ p : nat, returned_rows (S1.list_aircraft e w num_results (Z.of_nat p)))
            <$> seq 0 k).

(** A candidate file is stored when the source answers 200 and the store
    takes it; [body] is then the content stored. *)
Definition fetched (e : fetcher_env) (store_fails : string → bool) (filename : string)
  : bool :=
  match requests_get e (source_url e +:+ "/2023/11/01/" +:+ filename) with
  | Returned resp => bool_decide (status_code resp = 200%Z) && negb (store_fails filename)
  | Raised => false
  end.

Definition body (e : fetcher_env) (filename : string) : raw_file :=
  match requests_get e (source_url e +:+ "/2023/11/01/" +:+ filename) with
  | Returned resp => content resp
  | Raised => Malformed
  end.


(** The observation [o] of the document [d] has its four mandatory
    fields: the icao, both coordinates and the document's timestamp. *)
Definition all_present (d : document) (o : Obs.observation) : Prop :=
  is_Some (Obs.hex o) ∧ is_Some (Obs.lat o) ∧ is_Some (Obs.lon o) ∧ is_Some (now d).

#[global] Instance all_present_dec d o : Decision (all_present d o).
Proof. unfold all_present. apply _. Defined.

(** ** Example data *)

Definition ex_obs : Obs.observation :=
  {| Obs.hex := Some "abc123"; Obs.r := Some "N123AB"; Obs.t := Some "B738";
     Obs.lat := Some 40.5%float; Obs.lon := Some (-74.0)%float;
     Obs.alt_baro := Some (AltStr "ground"); Obs.gs := Some 450.0%float;
     Obs.emergency := Some "general" |}.

Definition ex_obs_no_lat : Obs.observation :=
  {| Obs.hex := Some "def456"; Obs.r := None; Obs.t := Some "A320";
     Obs.lat := None; Obs.lon := Some 2.0%float;
     Obs.alt_baro := Some (AltInt 35000); Obs.gs := None;
     Obs.emergency := None |}.

Definition ex_doc : document :=
  {| now := Some 1698796800%Z; aircraft := Some [ex_obs; ex_obs_no_lat] |}.

Definition ex_doc_no_array : document :=
  {| now := Some 1698800400%Z; aircraft := None |}.

Definition ex_env : loader_env :=
  {| remove_fails := false; list_objects_fails := false;
     download_fails := λ _, false; connect_fails := false;
     execute_fails := λ _, false; binds := λ _, true |}.

(** The third statement, [CREATE TABLE positions], fails. *)
Definition ex_env_fault : loader_env :=
  {| remove_fails := false; list_objects_fails := false;
     download_fails := λ _, false; connect_fails := false;
     execute_fails := λ n, bool_decide (n = 3); binds := λ _, true |}.

Definition ex_dir : gmap string raw_file :=
  {[ "000000Z.json.gz" := Json ex_doc; "010000Z.json.gz" := Json ex_doc_no_array ]}.


Definition ex_world : S1.world :=
  {| S1.raw_dir := Some ex_dir; S1.prepared_db := None |}.


Definition ex_bucket : gmap string raw_file :=
  {[ "raw/day=20231101/000000Z.json.gz" := Json ex_doc;
     "raw/day=20231101/010000Z.json.gz" := Json ex_doc_no_array ]}.

Definition ex_world4 : S4.world :=
  {| S4.bucket := ex_bucket; S4.prepared_db := None |}.


(** A source that has the files of hours 0, 1 and 3 only, and stores
    that take every write. *)
Definition ex_fetcher : fetcher_env :=
  {| source_url := "https://samples.adsbexchange.com/readsb-hist";
     requests_get := λ url,
       if bool_decide (url ∈ [ "https://samples.adsbexchange.com/readsb-hist/2023/11/01/000000Z.json.gz";
                               "https://samples.adsbexchange.com/readsb-hist/2023/11/01/010000Z.json.gz";
                               "https://samples.adsbexchange.com/readsb-hist/2023/11/01/030000Z.json.gz" ])
       then Returned {| status_code := 200; content := Json ex_doc |}
       else Returned {| status_code := 404; content := Malformed |};
     unlink_fails := λ _, false; open_fails := λ _, false;
     list_fails := false; delete_objects_fails := false;
     put_object_fails := λ _, false |}.

Definition ex_world_empty : S1.world :=
  {| S1.raw_dir := None; S1.prepared_db := None |}.

Definition ex_world4_empty : S4.world :=
  {| S4.bucket := ∅; S4.prepared_db := None |}.

(** The world and the database file a run of [s1] leaves on the example,
    without fault and with the third statement failing. *)
Definition ex_loaded_world : S1.world := (S1.prepare_data ex_env ex_world).2.

Definition ex_loaded : option database := S1.prepared_db ex_loaded_world.

Definition ex_partial : option database :=
  S1.prepared_db (S1.prepare_data ex_env_fault ex_world).2.

(** The database file a run of [s4] leaves on the example bucket. *)
Definition ex_loaded4 : option database :=
  S4.prepared_db (S4.prepare_data ex_env ex_world4).2.

(** ** Notions for the further properties *)

(** The dictionary [get_aircraft_position] makes of a row, the order of
    its result, and the rows its [WHERE] clause selects. *)
Definition position_dict_of (x : Positions.row) : position_dict :=
  {| pd_timestamp := Positions.timestamp x;
     pd_lat := Positions.lat x;
     pd_lon := Positions.lon x |}.

Definition by_pd_timestamp : relation position_dict :=
  λ a b, nulls_last Z.le (pd_timestamp a) (pd_timestamp b).

Definition located (icao : string) (x : Positions.row) : Prop :=
  Positions.icao x = Some icao ∧ is_Some (Positions.lat x) ∧ is_Some (Positions.lon x).

#[global] Instance located_dec icao x : Decision (located icao x).
Proof. unfold located. apply _. Defined.


(** The candidates a run of [download_data] stores: the first
    [file_limit] of the candidates that can be fetched. *)
Definition stored_files (e : fetcher_env) (store_fails : string → bool) (file_limit : Z)
  : list string :=
  take (Z.to_nat file_limit) (filter (λ f, fetched e store_fails f = true) filenames).

(** ** Further example data *)

(** An observation in flight, with a numeric altitude, and a directory
    that holds one document with it. *)
Definition ex_obs_airborne : Obs.observation :=
  {| Obs.hex := Some "abc123"; Obs.r := Some "N123AB"; Obs.t := Some "B738";
     Obs.lat := Some 41.0%float; Obs.lon := Some (-73.5)%float;
     Obs.alt_baro := Some (AltInt 35000); Obs.gs := Some 460.0%float;
     Obs.emergency := None |}.

Definition ex_doc_airborne : document :=
  {| now := Some 1698800400%Z; aircraft := Some [ex_obs_airborne] |}.

Definition ex_dir_airborne : gmap string raw_file :=
  {[ "010000Z.json.gz" := Json ex_doc_airborne ]}.



(** The database file of the example load, and its first Aircraft row. *)
Definition ex_db : database := default empty_database ex_loaded.


(** A bucket that also holds an object outside the partition. *)
Definition ex_world4_other : S4.world :=
  {| S4.bucket := <["notes/readme.txt" := Malformed]> ex_bucket;
     S4.prepared_db := None |}.

(** A bucket with 1001 objects under the prefix: [obj0], ..., [obj1000]. *)
Definition ex_bucket_large : gmap string raw_file :=
  list_to_map ((λ n : nat, (s3_prefix +:+ "obj" +:+ pretty n, Malformed)) <$> seq 0 1001).

Definition ex_world4_large : S4.world :=
  {| S4.bucket := ex_bucket_large; S4.prepared_db := None |}.

(** ** The raw files of a store *)

(** [suffix] ends [s]: it is [s], or it ends what follows the first
    character of [s]. *)
Fixpoint is_suffix (suffix s : string) : bool :=
  bool_decide (s = suffix) ||
  match s with
  | EmptyString => false
  | String _ rest => is_suffix suffix rest
  end.

(** A name without ["/"]: a file name, not a path. *)
Fixpoint slash_free (s : string) : bool :=
  match s with
  | EmptyString => true
  | String c rest => negb (bool_decide (c = "/"%char)) && slash_free rest
  end.

(** The name of a raw file: [*.json.gz]. *)
Definition raw_name (name : string) : Prop := is_suffix ".json.gz" name = true.

#[global] Instance raw_name_dec name : Decision (raw_name name).
Proof. unfold raw_name. apply _. Defined.

(** The observations a file holds, each with its document: the elements
    of the [aircraft] array of a file that parses. *)
Definition file_observations (c : raw_file) : list (document * Obs.observation) :=
  match c with
  | Json d =>
      match aircraft d with
      | Some l => (λ o, (d, o)) <$> l
      | None => []
      end
  | Malformed => []
  end.

(** The observations of the raw files of a store, in no particular
    order.  This is the store's content by the words of the spec; the
    Loader's reading of it is [documents] and [unnest]. *)
Definition store_observations (files : gmap string raw_file)
  : list (document * Obs.observation) :=
  entry ← map_to_list files;
  if decide (raw_name entry.1) then file_observations entry.2 else [].

(** The partition of the bucket [b] holds the files [files], each under
    the key [s3_prefix] followed by its name, and a run of [prepare_data]
    of [s4] reads all of them: the listing and the downloads do not raise,
    one listing returns every key (there are at most 1000), and the names
    are file names, so that no two objects are copied to the same file of
    the temporary directory. *)
Definition partition_read_whole (e : loader_env) (b files : gmap string raw_file) : Prop :=
  list_objects_fails e = false ∧ (∀ key, download_fails e key = false) ∧
  length (filter (λ k, String.prefix s3_prefix k = true) (sorted_names b)) ≤ 1000 ∧
  (∀ name, files !! name = b !! (s3_prefix +:+ name)) ∧
  (∀ name, is_Some (files !! name) → slash_free name = true).

(** A run of [prepare_data] over the raw files [files]: a run of [s1]
    on a raw directory that holds them, or a run of [s4] on a bucket whose
    partition holds them and is read whole. *)
Inductive load_run (e : loader_env) (files : gmap string raw_file)
  : option database → outcome string → option database → Prop :=
| load_run_s1 (w w' : S1.world) (res : outcome string) :
    S1.raw_dir w = Some files →
    S1.prepare_data e w = (res, w') →
    load_run e files (S1.prepared_db w) res (S1.prepared_db w')
| load_run_s4 (w w' : S4.world) (res : outcome string) :
    partition_read_whole e (S4.bucket w) files →
    S4.prepare_data e w = (res, w') →
    load_run e files (S4.prepared_db w) res (S4.prepared_db w').

(** An object of the listing that the copying loop of [prepare_data] of
    [s4] copies into the temporary directory. *)
Definition copied (e : loader_env) (b : gmap string raw_file) (s3_key : string) : Prop :=
  s3_key ≠ s3_prefix ∧ endswith s3_key ".json.gz" = true ∧
  download_fails e s3_key = false ∧ is_Some (b !! s3_key).

#[global] Instance copied_dec e b s3_key : Decision (copied e b s3_key).
Proof. unfold copied. apply _. Defined.

(** A character of an identifier: a digit, a letter or ["~"]. *)
Definition identifier_char (c : ascii) : bool :=
  let n := nat_of_ascii c in
  bool_decide (48 ≤ n ≤ 57 ∨ 65 ≤ n ≤ 90 ∨ 97 ≤ n ≤ 122 ∨ n = 126).

(** A string that [read_json] keeps a string whatever the other values
    of its column are: it is too short for a UUID and has none of the
    separators of a date, a time or a timestamp.  (A column of strings
    that all spell UUIDs, dates, times or timestamps is typed so by
    [read_json], which then stores the values in the spelling of that
    type.) *)
Definition identifier (s : string) : Prop :=
  String.length s < 32 ∧
  Forall (λ c, identifier_char c = true) (list_ascii_of_string s).

#[global] Instance identifier_dec s : Decision (identifier s).
Proof. unfold identifier. apply _. Defined.

(** The icao values of the raw files are identifiers, such as the six
    hexadecimal digits of an ICAO address. *)
Definition icao_read_as_text (x : document * Obs.observation) : Prop :=
  match Obs.hex x.2 with
  | Some i => identifier i
  | None => True
  end.

#[global] Instance icao_read_as_text_dec x : Decision (icao_read_as_text x).
Proof. unfold icao_read_as_text. destruct (Obs.hex x.2); apply _. Defined.

Definition icaos_read_as_text (files : gmap string raw_file) : Prop :=
  Forall icao_read_as_text (store_observations files).

(** The timestamps of the raw files are 64-bit integers (a column that
    holds a greater integer is read as floating point). *)
Definition timestamp_read_as_integer (c : raw_file) : Prop :=
  match c with
  | Json d =>
      match now d with
      | Some n => (- 2 ^ 63 ≤ n < 2 ^ 63)%Z
      | None => True
      end
  | Malformed => True
  end.

#[global] Instance timestamp_read_as_integer_dec c : Decision (timestamp_read_as_integer c).
Proof.
  unfold timestamp_read_as_integer. destruct c as [|d]; [apply _|].
  destruct (now d); apply _.
Defined.

Definition timestamps_read_as_integers (files : gmap string raw_file) : Prop :=
  map_Forall (λ _ c, timestamp_read_as_integer c) files.









(** A bucket with two objects of the same base name in two folders of
    the partition. *)
Definition ex_world4_nested : S4.world :=
  {| S4.bucket := {[ "raw/day=20231101/a/000000Z.json.gz" := Json ex_doc;
                     "raw/day=20231101/b/000000Z.json.gz" := Json ex_doc_airborne ]};
     S4.prepared_db := None |}.

(** The entry of [get_aircraft_position] for an observation of a
    document. *)
Definition tracked_position (x : document * Obs.observation) : position_dict :=
  {| pd_timestamp := now x.1; pd_lat := Obs.lat x.2; pd_lon := Obs.lon x.2 |}.

(** A Loader that cannot remove the old database file, and a world that
    holds the database of the example load. *)
Definition ex_env_stale : loader_env :=
  {| remove_fails := true; list_objects_fails := false;
     download_fails := λ _, false; connect_fails := false;
     execute_fails := λ _, false; binds := λ _, true |}.

Definition ex_world_stale : S1.world :=
  {| S1.raw_dir := Some ex_dir_airborne; S1.prepared_db := Some ex_db |}.

(** * Properties *)

(** ** The orders of [ORDER BY] *)

Section order.
Context {A : Type} (le : relation A).

#[global] Instance nulls_last_total `{!Total le} : Total (nulls_last le).
Proof. intros [a|] [b|]; simpl; auto. Qed.

#[global] Instance nulls_last_trans `{!Transitive le} : Transitive (nulls_last le).
Proof. intros [a|] [b|] [c|]; simpl; try done. apply transitivity. Qed.

End order.

#[global] Instance by_icao_total : Total by_icao.
Proof. intros a b. unfold by_icao. apply (total (nulls_last String.le)). Qed.

#[global] Instance by_icao_trans : Transitive by_icao.
Proof. intros a b c. unfold by_icao. apply transitivity. Qed.

(** ** Reading the files *)

Lemma parse_all_returned files docs :
  parse_all files = Returned docs → files = Json <$> docs.
Proof.
  revert docs. induction files as [|[|d] files IH]; intros docs; simpl.
  - by intros [= <-].
  - done.
  - destruct (parse_all files) as [ds|]; [|done].
    intros [= <-]. simpl. f_equal. by apply IH.
Qed.

Lemma omap_document_of (docs : list document) : omap document_of (Json <$> docs) = docs.
Proof. induction docs as [|d docs IH]; csimpl; [done|]. by rewrite IH. Qed.



Lemma read_json_returned files docs :
  read_json files = Returned docs → files = Json <$> docs.
Proof. destruct files as [|f files]; [done|]. apply parse_all_returned. Qed.

Lemma read_json_documents dir docs :
  read_json (glob_json_gz dir) = Returned docs → docs = documents dir.
Proof.
  intros H%read_json_returned. unfold documents. rewrite H.
  by rewrite omap_document_of.
Qed.

Lemma elem_of_raw_data_expanded docs row :
  row ∈ raw_data_expanded docs ↔
  ∃ d o, d ∈ docs ∧ o ∈ unnest d ∧ row = expand d o.
Proof.
  unfold raw_data_expanded. rewrite list_elem_of_bind.
  setoid_rewrite list_elem_of_fmap. split.
  - intros (d & (o & -> & Ho) & Hd). eauto.
  - intros (d & o & Hd & Ho & ->). eauto.
Qed.

(** ** Listing a directory *)

Lemma elem_of_sorted_names {C : Type} (d : gmap string C) (f : string) :
  f ∈ sorted_names d ↔ is_Some (d !! f).
Proof.
  unfold sorted_names. rewrite merge_sort_Permutation, list_elem_of_fmap. split.
  - intros ([f' c] & -> & Hin%elem_of_map_to_list). by exists c.
  - intros [c Hc]. exists (f, c). split; [done|]. by apply elem_of_map_to_list.
Qed.

Lemma elem_of_json_files {C : Type} (d : gmap string C) (f : string) :
  f ∈ json_files d ↔ endswith f ".json.gz" = true ∧ is_Some (d !! f).
Proof. unfold json_files. by rewrite list_elem_of_filter, elem_of_sorted_names. Qed.



(** ** The two [SELECT]s of the Loader *)

Lemma group_by_keys {R K : Type} `{EqDecision K} (key : R → K) (rows : list R) :
  (group_by key rows).*1 = remove_dups (key <$> rows).
Proof. unfold group_by. rewrite <-list_fmap_compose. apply list_fmap_id. Qed.

Lemma select_aircraft_icao rows :
  Aircraft.icao <$> select_aircraft rows
  ≡ₚ remove_dups (RawData.hex <$> filter (λ x, is_Some (RawData.hex x)) rows).
Proof.
  unfold select_aircraft. rewrite merge_sort_Permutation.
  by rewrite <-list_fmap_compose, <-group_by_keys.
Qed.


Lemma elem_of_select_aircraft_icao rows (x : option string) :
  x ∈ Aircraft.icao <$> select_aircraft rows ↔
  ∃ i, x = Some i ∧ ∃ row, row ∈ rows ∧ RawData.hex row = Some i.
Proof.
  rewrite select_aircraft_icao, elem_of_remove_dups, list_elem_of_fmap.
  setoid_rewrite list_elem_of_filter. split.
  - intros (row & -> & [i Hi] & Hrow). eauto.
  - intros (i & -> & row & Hrow & Hi). exists row. rewrite Hi. eauto.
Qed.

Lemma select_positions_Permutation rows :
  select_positions rows ≡ₚ position_of <$> filter retained rows.
Proof. unfold select_positions. by rewrite merge_sort_Permutation. Qed.

(** ** The statements commit one by one *)

Lemma build_tables_commits e files res db' :
  build_tables e files empty_database = (res, db') →
  ∃ k rows,
    k ≤ 6 ∧ db' = committed k rows ∧
    (res = Returned () ↔ k = 6) ∧
    (∀ n, 1 ≤ n ≤ k → execute_fails e n = false) ∧
    (1 ≤ k → ∃ docs, read_json files = Returned docs ∧ binds e docs = true ∧
                     rows = raw_data_expanded docs) ∧
    (k = 0 → first_statement_fails e files) ∧
    (1 ≤ k < 6 → execute_fails e (S k) = true).
Proof.
  unfold build_tables, mbind, db_bind, execute, create_raw_data_expanded.
  destruct (execute_fails e 1) eqn:E1.
  { intros [= <- <-]. exists 0, []. unfold first_statement_fails.
    split_and!; try done; try lia; auto. }
  destruct (read_json files) as [docs|] eqn:Hread.
  2:{ intros [= <- <-]. exists 0, []. unfold first_statement_fails.
      split_and!; try done; try lia; auto. }
  destruct (binds e docs) eqn:Hbinds.
  2:{ intros [= <- <-]. exists 0, []. unfold first_statement_fails.
      split_and!; try done; try lia; eauto. }
  set (rows := raw_data_expanded docs).
  destruct (execute_fails e 2) eqn:E2.
  { intros [= <- <-]. exists 1, rows. split_and!; try done; try lia; eauto.
    intros n Hn. by replace n with 1 by lia. }
  simpl. destruct (execute_fails e 3) eqn:E3.
  { intros [= <- <-]. exists 2, rows. split_and!; try done; try lia; eauto.
    intros n Hn. assert (n = 1 ∨ n = 2) as [-> | ->] by lia; done. }
  simpl. destruct (execute_fails e 4) eqn:E4.
  { intros [= <- <-]. exists 3, rows. split_and!; try done; try lia; eauto.
    intros n Hn. assert (n = 1 ∨ n = 2 ∨ n = 3) as [-> | [-> | ->]] by lia; done. }
  simpl. destruct (execute_fails e 5) eqn:E5.
  { intros [= <- <-]. exists 4, rows. split_and!; try done; try lia; eauto.
    intros n Hn.
    assert (n = 1 ∨ n = 2 ∨ n = 3 ∨ n = 4) as [-> | [-> | [-> | ->]]] by lia; done. }
  simpl. destruct (execute_fails e 6) eqn:E6.
  { intros [= <- <-]. exists 5, rows. split_and!; try done; try lia; eauto.
    intros n Hn.
    assert (n = 1 ∨ n = 2 ∨ n = 3 ∨ n = 4 ∨ n = 5)
      as [-> | [-> | [-> | [-> | ->]]]] by lia; done. }
  simpl. intros [= <- <-]. exists 6, rows. split_and!; try done; try lia; eauto.
  intros n Hn.
  assert (n = 1 ∨ n = 2 ∨ n = 3 ∨ n = 4 ∨ n = 5 ∨ n = 6)
    as [-> | [-> | [-> | [-> | [-> | ->]]]]] by lia; done.
Qed.

(** ** From the endpoints to the shared end of [prepare_data] *)

Lemma json_files_empty : json_files (∅ : gmap string raw_file) = [].
Proof. unfold json_files, sorted_names. by rewrite map_to_list_empty. Qed.

Lemma documents_no_json_files dir : json_files dir = [] → documents dir = [].
Proof. unfold documents, glob_json_gz. by intros ->. Qed.

Lemma prepare_run_load e dir db res db' :
  prepare_run e dir db res db' →
  load_directory e dir (remove_database e db) = (res, db').
Proof.
  assert (∀ d, load_directory e ∅ d = (Returned "OK", d)) as Hempty.
  { intros d. unfold load_directory. by rewrite json_files_empty. }
  intros [w w' r Hrun | w w' r Hrun].
  - unfold S1.prepare_data, S1.loaded_dir in *.
    destruct (S1.raw_dir w) as [dir'|]; injection Hrun as <- <-; cbn [default].
    + apply surjective_pairing.
    + apply Hempty.
  - unfold S4.prepare_data, S4.loaded_dir in *.
    destruct (list_objects_fails e).
    { injection Hrun as <- <-. apply Hempty. }
    destruct (list_objects_v2 (S4.bucket w) s3_prefix) as [|key keys] eqn:Hlist;
      injection Hrun as <- <-.
    + apply Hempty.
    + apply surjective_pairing.
Qed.

Lemma load_directory_returned e dir db' :
  load_directory e dir None = (Returned "OK", db') →
  aircraft_relation db' = select_aircraft (raw_data_expanded (documents dir)) ∧
  position_relation db' = select_positions (raw_data_expanded (documents dir)).
Proof.
  unfold load_directory. case_decide as Hfiles.
  - intros [= <-]. by rewrite documents_no_json_files.
  - unfold connect_and_build. destruct (connect_fails e); [done|]. simpl.
    destruct (build_tables e (glob_json_gz dir) empty_database) as [res db] eqn:Hbuild.
    apply build_tables_commits in Hbuild as (k & rows & _ & -> & Hres & _ & Hdocs & _).
    destruct res as [[]|]; [|done]. intros [= <-].
    assert (k = 6) as -> by by apply Hres.
    destruct Hdocs as (docs & Hread & _ & ->); [lia|].
    by apply read_json_documents in Hread as ->.
Qed.

(** What a run that returned ["OK"] on a store it could clear has
    built. *)
Lemma prepare_run_relations e dir db db' :
  prepare_run e dir db (Returned "OK") db' →
  remove_database e db = None →
  aircraft_relation db' = select_aircraft (raw_data_expanded (documents dir)) ∧
  position_relation db' = select_positions (raw_data_expanded (documents dir)).
Proof.
  intros Hrun%prepare_run_load Hfresh. rewrite Hfresh in Hrun.
  by apply load_directory_returned in Hrun.
Qed.




(** ** Rows and observations *)


Lemma positions_of_observations d (l : list Obs.observation) :
  position_of <$> filter retained (expand d <$> l)
  = (λ o, position_of (expand d o)) <$> filter (all_present d) l.
Proof.
  induction l as [|o l IH]; [done|]. csimpl.
  destruct (decide (all_present d o)) as [H|H].
  - rewrite (filter_cons_True retained), (filter_cons_True (all_present d)) by done.
    csimpl. by rewrite IH.
  - by rewrite (filter_cons_False retained), (filter_cons_False (all_present d)) by done.
Qed.

Lemma positions_of_documents docs :
  position_of <$> filter retained (raw_data_expanded docs)
  = d ← docs; (λ o, position_of (expand d o)) <$> filter (all_present d) (unnest d).
Proof.
  unfold raw_data_expanded. induction docs as [|d docs IH]; [done|].
  rewrite !bind_cons, filter_app, fmap_app, IH. by rewrite positions_of_observations.
Qed.

Lemma elem_of_select_positions docs p :
  p ∈ select_positions (raw_data_expanded docs) ↔
  ∃ d o, d ∈ docs ∧ o ∈ unnest d ∧ all_present d o ∧ p = position_of (expand d o).
Proof.
  rewrite select_positions_Permutation, list_elem_of_fmap.
  setoid_rewrite list_elem_of_filter. setoid_rewrite elem_of_raw_data_expanded.
  split.
  - intros (row & -> & Hret & d & o & Hd & Ho & ->). eauto 10.
  - intros (d & o & Hd & Ho & Hp & ->). exists (expand d o). eauto 10.
Qed.

Lemma select_positions_emergency docs :
  Forall (λ p, Positions.emergency p = None) (select_positions (raw_data_expanded docs)).
Proof.
  apply Forall_forall. by intros p (d & o & _ & _ & _ & ->)%elem_of_select_positions.
Qed.

Lemma filter_Forall_id {A : Type} (P : A → Prop) `{!∀ x, Decision (P x)} (l : list A) :
  Forall P l → filter P l = l.
Proof.
  induction 1 as [|x l Hx Hl IH]; [done|].
  rewrite filter_cons_True by done. by rewrite IH.
Qed.

Lemma select_aircraft_icao_Some rows :
  Forall (λ x, is_Some (Aircraft.icao x)) (select_aircraft rows).
Proof.
  apply Forall_forall. intros x Hx.
  assert (Aircraft.icao x ∈ Aircraft.icao <$> select_aircraft rows) as Hin.
  { apply list_elem_of_fmap. eauto. }
  apply elem_of_select_aircraft_icao in Hin as (i & -> & _). eauto.
Qed.

(** ** A string that is no number casts to [NULL] *)




(** ** Pages *)

Lemma limit_offset_nil {A : Type} n k : limit_offset n k ([] : list A) = [].
Proof. unfold limit_offset. by rewrite drop_nil, take_nil. Qed.

Lemma pages_concat {A : Type} (l : list A) (n k : nat) :
  concat ((λ p, limit_offset n (p * n) l) <$> seq 0 k) = take (k * n) l.
Proof.
  induction k as [|k IH]; [done|].
  rewrite seq_S, fmap_app, concat_app, IH. simpl. rewrite app_nil_r.
  unfold limit_offset. rewrite take_take_drop. f_equal. lia.
Qed.

Lemma Sorted_limit_offset {A : Type} (R : relation A) `{!Transitive R} n k (l : list A) :
  Sorted R l → Sorted R (limit_offset n k l).
Proof.
  intros Hl%Sorted_StronglySorted; [|done]. apply StronglySorted_Sorted.
  unfold limit_offset.
  rewrite <-(take_drop k l) in Hl. apply StronglySorted_app_1_r in Hl.
  rewrite <-(take_drop n (drop k l)) in Hl. by apply StronglySorted_app_1_l in Hl.
Qed.

(** A page of [list_aircraft] on the store a load has left. *)
Lemma list_aircraft_page e q dir db db' w' (num_results : Z) (page : nat) :
  prepare_run e dir db (Returned "OK") db' →
  remove_database e db = None →
  S1.prepared_db w' = db' →
  connect_fails q = false → execute_fails q 1 = false →
  (0 ≤ num_results ≤ max_limit_value)%Z →
  (Z.of_nat page * num_results ≤ max_limit_value)%Z →
  S1.list_aircraft q w' num_results (Z.of_nat page)
  = Returned (limit_offset (Z.to_nat num_results) (page * Z.to_nat num_results)
                (merge_sort by_icao (aircraft_relation db'))).
Proof.
  intros Hrun Hfresh Hw Hconn Hexec Hn Hoffset.
  destruct (prepare_run_relations _ _ _ _ Hrun Hfresh) as [Hrel _].
  unfold S1.list_aircraft. rewrite Hw.
  destruct db' as [d|]; [|by cbn; rewrite limit_offset_nil].
  unfold connect_and_query. rewrite Hconn, Hexec.
  unfold select_aircraft_page, aircraft_relation in *. simpl in *.
  destruct (tbl_aircraft d) as [rows|]; simpl in *.
  - unfold page_of. rewrite decide_True by lia. simpl.
    rewrite Z2Nat.inj_mul, Nat2Z.id by lia.
    rewrite filter_Forall_id; [done|]. rewrite Hrel. apply select_aircraft_icao_Some.
  - by cbn; rewrite limit_offset_nil.
Qed.

(** ** The endpoints of the Query Service return *)

Lemma try_except_returned {A : Type} (body : outcome A) (handler : A) :
  ∃ a, try_except body handler = Returned a ∧ (body = Raised → a = handler).
Proof. destruct body as [a|]; simpl; eauto. exists a. by split. Qed.

Lemma list_aircraft_returned q w num_results page :
  ∃ rows, S1.list_aircraft q w num_results page = Returned rows ∧
    (S1.prepared_db w = None → rows = []) ∧
    (∀ db, S1.prepared_db w = Some db →
           connect_and_query q db (select_aircraft_page num_results (page * num_results))
           = Raised →
           rows = []).
Proof.
  unfold S1.list_aircraft. destruct (S1.prepared_db w) as [db|].
  - destruct (try_except_returned
                (connect_and_query q db
                   (select_aircraft_page num_results (page * num_results))) [])
      as (rows & -> & Hrows).
    exists rows. split_and!; [done..|]. by intros ? [= <-].
  - exists []. by split_and!.
Qed.

Lemma get_aircraft_position_returned q w icao num_results page :
  ∃ rows, S1.get_aircraft_position q w icao num_results page = Returned rows ∧
    (S1.prepared_db w = None → rows = []) ∧
    (∀ db, S1.prepared_db w = Some db →
           connect_and_query q db
             (select_positions_page icao num_results (page * num_results)) = Raised →
           rows = []).
Proof.
  unfold S1.get_aircraft_position. destruct (S1.prepared_db w) as [db|].
  - destruct (try_except_returned
                (connect_and_query q db
                   (select_positions_page icao num_results (page * num_results))) [])
      as (rows & -> & Hrows).
    exists rows. split_and!; [done..|]. by intros ? [= <-].
  - exists []. by split_and!.
Qed.

Lemma get_aircraft_statistics_returned q w icao :
  ∃ s, S1.get_aircraft_statistics q w icao = Returned s ∧
    (S1.prepared_db w = None → s = no_statistics) ∧
    (∀ db, S1.prepared_db w = Some db →
           connect_and_query q db (select_statistics icao) = Raised →
           s = no_statistics).
Proof.
  unfold S1.get_aircraft_statistics. destruct (S1.prepared_db w) as [db|].
  - destruct (connect_and_query q db (select_statistics icao))
      as [[[[a g] h]|]|] eqn:Hq; eexists; (split_and!; [done..|]);
      intros ? [= <-]; by rewrite ?Hq.
  - exists no_statistics. by split_and!.
Qed.

(** ** The emergency flag *)

Lemma bool_or_true (column : list (option bool)) :
  bool_or column = Some true ↔ Some true ∈ column.
Proof.
  induction column as [|x column IH]; simpl.
  { split; [done|]. by intros ?%elem_of_nil. }
  rewrite elem_of_cons, <-IH.
  destruct x as [[]|], (bool_or column) as [[]|]; simpl; intuition congruence.
Qed.

Lemma emergency_condition_true p :
  emergency_condition p = Some true ↔
  ∃ flag, Positions.emergency p = Some flag ∧ flag ≠ ""%string.
Proof.
  unfold emergency_condition, is_not_null, sql_neq.
  destruct (Positions.emergency p) as [flag|]; simpl.
  - case_bool_decide as H; simpl.
    + split; [eauto|done].
    + split; [done|]. by intros (? & [= <-] & ?).
  - split; [done|]. by intros (? & ? & _).
Qed.

(** On a store that can be read, [had_emergency] tells whether a row of
    the aircraft carries a flag. *)
Lemma had_emergency_iff q w db rows icao :
  S1.prepared_db w = Some db → tbl_positions db = Some rows →
  connect_fails q = false → execute_fails q 1 = false →
  ∃ s, S1.get_aircraft_statistics q w icao = Returned s ∧
       (had_emergency s = true ↔
        ∃ p, p ∈ rows ∧ Positions.icao p = Some icao ∧
             ∃ flag, Positions.emergency p = Some flag ∧ flag ≠ ""%string).
Proof.
  intros Hdb Hrows Hconn Hexec. unfold S1.get_aircraft_statistics.
  rewrite Hdb. unfold connect_and_query. rewrite Hconn, Hexec.
  unfold select_statistics. rewrite Hrows. eexists. split; [done|]. simpl.
  destruct (bool_or _) as [b|] eqn:Hb.
  - transitivity (bool_or (emergency_condition <$>
                     filter (λ x, Positions.icao x = Some icao) rows) = Some true).
    { rewrite Hb. split; congruence. }
    rewrite bool_or_true, list_elem_of_fmap.
    setoid_rewrite list_elem_of_filter. split.
    + intros (p & Hp%eq_sym%emergency_condition_true & Hicao & Hin). eauto.
    + intros (p & Hin & Hicao & Hp%emergency_condition_true). eauto.
  - split; [done|]. intros (p & Hin & Hicao & Hp%emergency_condition_true).
    assert (bool_or (emergency_condition <$>
              filter (λ x, Positions.icao x = Some icao) rows) = Some true); [|congruence].
    apply bool_or_true, list_elem_of_fmap. exists p. split; [done|].
    by apply list_elem_of_filter.
Qed.

(** ** Partial stores *)

Lemma all_or_nothing_committed k rows :
  k ≤ 6 → all_or_nothing (Some (committed k rows)) ↔ k ≤ 1 ∨ k = 6.
Proof.
  intros Hk. unfold all_or_nothing, committed. cbn [tbl_aircraft tbl_positions indexes].
  assert (∀ j, j ≤ 2 → "idx_positions_timestamp" ∉ take j index_names) as Hlast.
  { intros j Hj Hin. assert (j = 0 ∨ j = 1 ∨ j = 2) as [-> | [-> | ->]] by lia;
      cbn in Hin;
      repeat (apply elem_of_cons in Hin as [Hin|Hin]; [discriminate Hin|]);
      by apply elem_of_nil in Hin. }
  destruct (decide (k ≤ 1)) as [Hk1|Hk1].
  { split; [by left|]. intros _. right.
    rewrite !decide_False by lia. replace (k - 3) with 0 by lia. done. }
  destruct (decide (k = 6)) as [->|Hk6].
  { split; [by right|]. intros _. left. rewrite !decide_True by lia.
    split_and!; [by eexists..|]. intros i Hi. by apply elem_of_list_to_set. }
  split; [|lia]. rewrite decide_True by lia. intros [(_ & Hpos & Hidx)|([=] & _)].
  destruct (decide (3 ≤ k)) as [Hk3|Hk3]; [|by destruct Hpos].
  destruct (Hlast (k - 3)); [lia|].
  specialize (Hidx "idx_positions_timestamp"). rewrite elem_of_list_to_set in Hidx.
  apply Hidx. unfold index_names. do 2 right. left.
Qed.

(** ** A file without observations *)

Lemma StronglySorted_filter {A : Type} (R : relation A) (P : A → Prop)
    `{!∀ x, Decision (P x)} (l : list A) :
  StronglySorted R l → StronglySorted R (filter P l).
Proof.
  induction 1 as [|x l Hl IH Hx]; [constructor|].
  rewrite filter_cons. case_decide; [|done].
  constructor; [done|]. rewrite Forall_forall in *.
  intros y [_ Hy]%list_elem_of_filter. by apply Hx.
Qed.

Lemma NoDup_sorted_names {C : Type} (d : gmap string C) : NoDup (sorted_names d).
Proof.
  unfold sorted_names. rewrite merge_sort_Permutation. apply NoDup_fst_map_to_list.
Qed.




(** ** The download loop *)

Section download_loop_facts.
Context {St : Type} (e : fetcher_env) (put : St → string → raw_file → outcome St).
Context (store_fails : string → bool) (ins : St → string → raw_file → St).
Hypothesis put_spec : ∀ st f c,
  put st f c = if store_fails f then Raised else Returned (ins st f c).

(** From a counter [n], the loop stores the first [file_limit - n]
    candidates that can be fetched, in their order. *)
Lemma download_loop_spec (file_limit : Z) (names : list string) (n : Z) (st : St) :
  download_loop e put file_limit names n st =
  let picked := take (Z.to_nat (file_limit - n)%Z)
                     (filter (λ f, fetched e store_fails f = true) names) in
  ((n + Z.of_nat (length picked))%Z, foldl (λ s f, ins s f (body e f)) st picked).
Proof.
  revert n st. induction names as [|f names IH]; intros n st; cbn [download_loop].
  { rewrite filter_nil, take_nil. cbn. by rewrite Z.add_0_r. }
  case_decide as Hlimit.
  { assert (Z.to_nat (file_limit - n) = 0) as -> by lia. rewrite take_0. cbn.
    by rewrite Z.add_0_r. }
  assert (Z.to_nat (file_limit - n) = S (Z.to_nat (file_limit - (n + 1)))) as Hnext by lia.
  destruct (fetched e store_fails f) eqn:Hf.
  - rewrite filter_cons_True by done. unfold fetched in Hf.
    assert (body e f = match requests_get e (source_url e +:+ "/2023/11/01/" +:+ f) with
                       | Returned resp => content resp
                       | Raised => Malformed
                       end) as Hbody by done.
    destruct (requests_get e _) as [resp|]; [|done].
    apply andb_true_iff in Hf as [Hstatus%bool_decide_eq_true Hstore%negb_true_iff].
    rewrite decide_True, put_spec, Hstore, IH, Hnext by done. cbn.
    rewrite Hbody. f_equal. lia.
  - rewrite filter_cons_False by (by rewrite Hf). unfold fetched in Hf.
    destruct (requests_get e _) as [resp|]; [|apply IH].
    case_decide as Hstatus; [|apply IH].
    rewrite bool_decide_true in Hf by done. rewrite put_spec.
    destruct (store_fails f); [apply IH|done].
Qed.

End download_loop_facts.




(** ** Keys under a prefix *)

Lemma filter_none {A : Type} (P : A → Prop) `{!∀ x, Decision (P x)} (l : list A) :
  (∀ x, x ∈ l → ¬ P x) → filter P l = [].
Proof.
  intros Hl. destruct (filter P l) as [|x l'] eqn:Hf; [done|].
  assert (x ∈ filter P l) as [Hx Hin]%list_elem_of_filter by (rewrite Hf; left).
  by destruct (Hl x Hin).
Qed.

Lemma prefix_app (p s : string) : String.prefix p (p +:+ s) = true.
Proof.
  induction p as [|a p IH]; simpl.
  - by destruct s.
  - by destruct (Ascii.ascii_dec a a).
Qed.

Lemma prefix_inv (p k : string) : String.prefix p k = true → ∃ s, k = p +:+ s.
Proof.
  revert k. induction p as [|a p IH]; intros k.
  { intros _. by exists k. }
  destruct k as [|b k]; [done|]. simpl.
  destruct (Ascii.ascii_dec a b) as [->|]; [|done].
  intros [s ->]%IH. by exists s.
Qed.

Lemma elem_of_list_objects_v2 {C : Type} (b : gmap string C) (p k : string) :
  k ∈ list_objects_v2 b p → String.prefix p k = true ∧ is_Some (b !! k).
Proof.
  unfold list_objects_v2. intros Hin.
  assert (k ∈ filter (λ k, String.prefix p k = true) (sorted_names b)) as Hk.
  { eapply elem_of_sublist; [done|apply sublist_take]. }
  apply list_elem_of_filter in Hk as [Hp Hk]. by apply elem_of_sorted_names in Hk.
Qed.

(** ** Names and keys *)

Lemma substring_whole (s : string) : substring 0 (String.length s) s = s.
Proof. induction s as [|c s IH]; [done|]. simpl. by rewrite IH. Qed.

Lemma is_suffix_length (suffix s : string) :
  is_suffix suffix s = true → String.length suffix ≤ String.length s.
Proof.
  induction s as [|c s IH]; simpl.
  - rewrite orb_false_r. by intros <-%bool_decide_eq_true.
  - intros [<-%bool_decide_eq_true|H]%orb_true_iff; [done|].
    etrans; [by apply IH|]. lia.
Qed.

Lemma endswith_is_suffix (s suffix : string) : endswith s suffix = is_suffix suffix s.
Proof.
  unfold endswith. induction s as [|c s IH].
  - by destruct suffix.
  - cbn [String.length is_suffix].
    destruct (Nat.le_gt_cases (String.length suffix) (String.length s)) as [Hle|Hgt].
    + rewrite decide_True by lia. rewrite decide_True in IH by done.
      replace (S (String.length s) - String.length suffix)
        with (S (String.length s - String.length suffix)) by lia.
      cbn [substring]. rewrite IH. rewrite bool_decide_false; [done|].
      intros <-. simpl in Hle. lia.
    + rewrite decide_False in IH by lia. rewrite <-IH, orb_false_r.
      destruct (decide (String.length suffix = S (String.length s))) as [Hlen|Hlen].
      * rewrite decide_True by lia. rewrite Hlen, Nat.sub_diag.
        change (S (String.length s)) with (String.length (String c s)).
        by rewrite substring_whole.
      * rewrite decide_False by lia. rewrite bool_decide_false; [done|].
        intros <-. simpl in Hlen. lia.
Qed.

Lemma string_app_assoc (s1 s2 s3 : string) : (s1 +:+ s2) +:+ s3 = s1 +:+ (s2 +:+ s3).
Proof.
  induction s1 as [|c s1 IH]; [done|].
  change (String c ((s1 +:+ s2) +:+ s3) = String c (s1 +:+ (s2 +:+ s3))).
  by rewrite IH.
Qed.

Lemma string_app_nil_r (s : string) : s +:+ "" = s.
Proof.
  induction s as [|c s IH]; [done|].
  change (String c (s +:+ "") = String c s). by rewrite IH.
Qed.

Lemma basename_from_slash_free (cur f : string) :
  slash_free f = true → basename_from cur f = cur +:+ f.
Proof.
  revert cur. induction f as [|c f IH]; intros cur; simpl.
  { by rewrite string_app_nil_r. }
  case_bool_decide as Hc; [done|]. cbn [negb andb]. intros Hf.
  rewrite decide_False by done. rewrite IH by done. by rewrite string_app_assoc.
Qed.

Lemma basename_s3_prefix (f : string) :
  slash_free f = true → basename (s3_prefix +:+ f) = f.
Proof.
  intros Hf. transitivity (basename_from "" f); [reflexivity|].
  by rewrite basename_from_slash_free.
Qed.

Lemma is_suffix_s3_prefix (f : string) :
  is_suffix ".json.gz" (s3_prefix +:+ f) = is_suffix ".json.gz" f.
Proof. reflexivity. Qed.

(** ** The raw files and what the Loader reads of them *)

Lemma raw_name_endswith (name : string) :
  raw_name name ↔ endswith name ".json.gz" = true.
Proof. unfold raw_name. by rewrite endswith_is_suffix. Qed.

Lemma observations_of_entries (files : gmap string raw_file)
    (entries : list (string * raw_file)) :
  (∀ f c, (f, c) ∈ entries → files !! f = Some c) →
  (d ← omap document_of
         (omap (λ f, files !! f)
            (filter (λ f, endswith f ".json.gz" = true) entries.*1));
   (λ o, (d, o)) <$> unnest d)
  = entry ← entries;
    if decide (raw_name entry.1) then file_observations entry.2 else [].
Proof.
  induction entries as [|[f c] entries IH]; intros Hin; [done|].
  rewrite fmap_cons, filter_cons, bind_cons. cbn [fst snd].
  assert (files !! f = Some c) as Hf by (apply Hin; left).
  rewrite <-IH by (intros f' c' ?; apply Hin; by right).
  destruct (decide (endswith f ".json.gz" = true)) as [He|He].
  - rewrite decide_True by by apply raw_name_endswith.
    csimpl. rewrite Hf. destruct c as [|d]; csimpl; [done|].
    unfold unnest. by destruct (aircraft d).
  - rewrite decide_False; [done|]. by rewrite raw_name_endswith.
Qed.

Lemma store_observations_documents (files : gmap string raw_file) :
  (d ← documents files; (λ o, (d, o)) <$> unnest d) ≡ₚ store_observations files.
Proof.
  unfold store_observations.
  rewrite <-(observations_of_entries files)
    by (by intros f c ?%elem_of_map_to_list).
  unfold documents, glob_json_gz, json_files, sorted_names.
  by rewrite merge_sort_Permutation.
Qed.


(** ** The temporary directory of [prepare_data] of [s4] *)

Lemma foldl_download_file_lookup e b (contents : list string)
    (acc : gmap string raw_file) (f : string) :
  foldl (S4.download_file e b) acc contents !! f
  = match last (filter (λ k, copied e b k ∧ basename k = f) contents) with
    | Some k => b !! k
    | None => acc !! f
    end.
Proof.
  revert acc. induction contents as [|k contents IH]; intros acc; [done|].
  cbn [foldl]. rewrite IH. rewrite filter_cons.
  destruct (decide (copied e b k ∧ basename k = f)) as [[Hk Hf]|Hnot].
  - rewrite last_cons.
    destruct (last (filter _ contents)) as [k'|]; [done|].
    destruct Hk as (Hne & Hend & Hfail & [c Hc]). unfold S4.download_file.
    rewrite bool_decide_false, Hend, Hfail, Hc by done.
    cbn. by rewrite <-Hf, lookup_insert_eq.
  - destruct (last (filter _ contents)) as [k'|]; [done|].
    unfold S4.download_file.
    case_bool_decide as Hne; [done|]. cbn [orb].
    destruct (endswith k ".json.gz") eqn:Hend; [|done]. cbn [negb].
    destruct (download_fails e k) eqn:Hfail; [done|].
    destruct (b !! k) as [c|] eqn:Hc; [|done].
    rewrite lookup_insert_ne; [done|]. intros Hf. apply Hnot.
    split; [|done]. by split_and!.
Qed.

Lemma last_all_equal {A : Type} (l : list A) (x : A) :
  x ∈ l → (∀ y, y ∈ l → y = x) → last l = Some x.
Proof.
  intros Hx Hall. destruct (last l) as [y|] eqn:Hlast.
  - f_equal. apply Hall. apply last_Some in Hlast as [l' ->].
    apply elem_of_app. right. left.
  - apply last_None in Hlast as ->. by apply elem_of_nil in Hx.
Qed.

(** When the partition is read whole, the temporary directory holds the
    raw files of the partition under their names, and nothing else. *)
Lemma temp_dir_whole e b files (name : string) :
  partition_read_whole e b files →
  S4.temp_dir e b (list_objects_v2 b s3_prefix) !! name
  = if decide (raw_name name) then files !! name else None.
Proof.
  intros (_ & Hdown & Hlen & Hmirror & Hflat).
  unfold S4.temp_dir. rewrite foldl_download_file_lookup, lookup_empty.
  assert (∀ k, k ∈ filter (λ k, copied e b k ∧ basename k = name)
                      (list_objects_v2 b s3_prefix) →
               k = s3_prefix +:+ name ∧ raw_name name ∧ is_Some (files !! name)) as Hkeys.
  { intros k [[(_ & Hend & _ & Hk) Hbase] [Hp _]%elem_of_list_objects_v2]%list_elem_of_filter.
    apply prefix_inv in Hp as [f ->]. rewrite <-Hmirror in Hk.
    rewrite basename_s3_prefix in Hbase by by apply Hflat. subst f.
    split_and!; [done| |done].
    apply raw_name_endswith. by rewrite endswith_is_suffix in *. }
  destruct (decide (raw_name name ∧ is_Some (files !! name))) as [[Hraw Hsome]|Hnot].
  - rewrite decide_True by done.
    rewrite (last_all_equal _ (s3_prefix +:+ name)).
    + by rewrite Hmirror.
    + apply list_elem_of_filter. split.
      * split; [|by apply basename_s3_prefix, Hflat].
        unfold copied. rewrite Hdown, <-Hmirror. split_and!; try done.
        -- intros Heq. rewrite <-(string_app_nil_r s3_prefix) in Heq at 2.
           apply (inj _) in Heq. by subst name.
        -- rewrite endswith_is_suffix. done.
      * unfold list_objects_v2. rewrite take_ge by done.
        apply list_elem_of_filter. split; [apply prefix_app|].
        apply elem_of_sorted_names. by rewrite <-Hmirror.
    + intros k Hk. by apply Hkeys.
  - assert (filter (λ k, copied e b k ∧ basename k = name)
              (list_objects_v2 b s3_prefix) = []) as ->.
    { apply filter_none. intros k Hk HP.
      destruct (Hkeys k) as (_ & ? & ?); [by apply list_elem_of_filter|].
      by destruct Hnot. }
    cbn. case_decide as Hraw; [|done].
    destruct (files !! name) as [c|] eqn:Hc; [|done]. destruct Hnot. eauto.
Qed.

(** Two directories with the same [*.json.gz] files are read alike. *)
Lemma json_files_ext {C : Type} (d1 d2 : gmap string C) :
  (∀ f, endswith f ".json.gz" = true → d1 !! f = d2 !! f) →
  json_files d1 = json_files d2 ∧ glob_json_gz d1 = glob_json_gz d2.
Proof.
  intros Hext.
  assert (json_files d1 = json_files d2) as Hfiles.
  { apply (StronglySorted_unique String.le).
    - apply StronglySorted_filter, (StronglySorted_merge_sort String.le).
    - apply StronglySorted_filter, (StronglySorted_merge_sort String.le).
    - apply NoDup_Permutation.
      + apply NoDup_filter, NoDup_sorted_names.
      + apply NoDup_filter, NoDup_sorted_names.
      + intros f. rewrite !elem_of_json_files. split.
        * intros [Hf Hsome]. by rewrite <-Hext.
        * intros [Hf Hsome]. by rewrite Hext. }
  split; [done|]. unfold glob_json_gz. rewrite <-Hfiles.
  apply list_omap_ext, Forall2_same_length_lookup. split; [done|].
  intros i f f' Hi Hi'. assert (f' = f) as -> by congruence.
  apply Hext. by apply list_elem_of_lookup_2, elem_of_json_files in Hi as [? _].
Qed.

Lemma load_directory_ext e (d1 d2 : gmap string raw_file) db :
  (∀ f, endswith f ".json.gz" = true → d1 !! f = d2 !! f) →
  load_directory e d1 db = load_directory e d2 db.
Proof.
  intros [Hfiles Hglob]%json_files_ext. unfold load_directory.
  by rewrite Hfiles, Hglob.
Qed.

(** A run over raw files ends as [load_directory] does on them. *)
Lemma load_run_load e files db res db' :
  load_run e files db res db' →
  load_directory e files (remove_database e db) = (res, db').
Proof.
  intros [w w' r Hdir Hrun | w w' r Hwhole Hrun].
  - unfold S1.prepare_data in Hrun. rewrite Hdir in Hrun.
    injection Hrun as <- <-. apply surjective_pairing.
  - assert (load_directory e (S4.temp_dir e (S4.bucket w)
                                (list_objects_v2 (S4.bucket w) s3_prefix))
              (remove_database e (S4.prepared_db w))
            = load_directory e files (remove_database e (S4.prepared_db w))) as Hsame.
    { apply load_directory_ext. intros f Hf.
      rewrite (temp_dir_whole e (S4.bucket w) files) by done.
      by rewrite decide_True by by apply raw_name_endswith. }
    unfold S4.prepare_data in Hrun.
    destruct Hwhole as (Hlist & _). rewrite Hlist in Hrun.
    destruct (list_objects_v2 (S4.bucket w) s3_prefix) as [|key keys] eqn:Hkeys.
    + injection Hrun as <- <-. rewrite <-Hsame.
      unfold S4.temp_dir, load_directory. cbn [foldl]. by rewrite json_files_empty.
    + injection Hrun as <- <-. rewrite <-Hsame. apply surjective_pairing.
Qed.

(** What a run that returned ["OK"] on a store it could clear has built
    from the raw files. *)
Lemma load_run_relations e files db db' :
  load_run e files db (Returned "OK") db' →
  remove_database e db = None →
  aircraft_relation db' = select_aircraft (raw_data_expanded (documents files)) ∧
  position_relation db' = select_positions (raw_data_expanded (documents files)).
Proof.
  intros Hrun%load_run_load Hfresh. rewrite Hfresh in Hrun.
  by apply load_directory_returned in Hrun.
Qed.

(** ** Position rows and observations of the raw files *)






(** * The claims *)

(** The two example runs. *)
Lemma ex_run : prepare_run ex_env ex_dir None (Returned "OK") ex_loaded.
Proof. by apply (prepare_run_s1 ex_env ex_world ex_loaded_world). Qed.

Lemma ex_run_fault : prepare_run ex_env_fault ex_dir None Raised ex_partial.
Proof.
  by apply (prepare_run_s1 ex_env_fault ex_world
              (S1.prepare_data ex_env_fault ex_world).2).
Qed.

Lemma ex_run4 :
  prepare_run ex_env (S4.loaded_dir ex_env ex_world4) None (Returned "OK") ex_loaded4.
Proof.
  by apply (prepare_run_s4 ex_env ex_world4 (S4.prepare_data ex_env ex_world4).2).
Qed.

(** The run of [s4] copies the two objects under their base names and
    builds the same tables as the run of [s1]. *)
Example ex_s4_agrees :
  S4.loaded_dir ex_env ex_world4 = ex_dir ∧ ex_loaded4 = ex_loaded.
Proof. split; by vm_compute. Qed.


Example ex_position_relation :
  position_relation ex_loaded
  = [ {| Positions.icao := Some "abc123"; Positions.timestamp := Some 1698796800%Z;
         Positions.lat := Some 40.5%float; Positions.lon := Some (-74.0)%float;
         Positions.altitude_baro := None; Positions.ground_speed := Some 450.0%float;
         Positions.emergency := None |} ].
Proof. by vm_compute. Qed.

Example ex_list_aircraft :
  S1.list_aircraft ex_env ex_loaded_world 1 1
  = Returned [ {| Aircraft.icao := Some "def456"; Aircraft.registration := None;
                  Aircraft.type := Some "A320" |} ].
Proof. by vm_compute. Qed.

Example ex_get_aircraft_position :
  S1.get_aircraft_position ex_env ex_loaded_world "abc123" 1000 0
  = Returned [ {| pd_timestamp := Some 1698796800%Z; pd_lat := Some 40.5%float;
                  pd_lon := Some (-74.0)%float |} ].
Proof. by vm_compute. Qed.

Example ex_download :
  S1.downloaded ex_fetcher ex_world_empty 5
  = (3%Z, {[ "000000Z.json.gz" := Json ex_doc; "010000Z.json.gz" := Json ex_doc;
             "030000Z.json.gz" := Json ex_doc ]}).
Proof. by vm_compute. Qed.

Lemma ex_dir_glob : glob_json_gz ex_dir = [Json ex_doc; Json ex_doc_no_array].
Proof. by vm_compute. Qed.



(** The example runs over raw files. *)
Lemma ex_load_run : load_run ex_env ex_dir None (Returned "OK") ex_loaded.
Proof. by apply (load_run_s1 ex_env ex_dir ex_world ex_loaded_world). Qed.



Lemma ex_icaos_read_as_text : icaos_read_as_text ex_dir.
Proof. apply (bool_decide_unpack _). by vm_compute. Qed.

Lemma ex_timestamps_read_as_integers : timestamps_read_as_integers ex_dir.
Proof. apply (bool_decide_unpack _). by vm_compute. Qed.














(** C3, as the code has it: nothing is rolled back.  On a store it could
    clear, a run without a [.json.gz] file returns ["OK"] and leaves no
    database file; a run that cannot connect raises and leaves none; any
    other run leaves the file as the first [k] of the six statements made
    it, [k] being the number of statements before the first that failed:
    the Aircraft table from [k = 2] on, the Position table from [k = 3]
    on, then the indexes one by one.  It returns ["OK"] when [k = 6] and
    raises otherwise, and the file is all-or-nothing only for [k ≤ 1] and
    [k = 6]. *)
Theorem load_keeps_completed_statements e dir db res db' :
  prepare_run e dir db res db' →
  remove_database e db = None →
  (json_files dir = [] → res = Returned "OK" ∧ db' = None) ∧
  (json_files dir ≠ [] → connect_fails e = true → res = Raised ∧ db' = None) ∧
  (json_files dir ≠ [] → connect_fails e = false →
   ∃ k rows,
     k ≤ 6 ∧ db' = Some (committed k rows) ∧
     (res = Returned "OK" ↔ k = 6) ∧ (res = Raised ↔ k < 6) ∧
     (all_or_nothing db' ↔ k ≤ 1 ∨ k = 6) ∧
     (∀ n, 1 ≤ n ≤ k → execute_fails e n = false) ∧
     (1 ≤ k → rows = raw_data_expanded (documents dir)) ∧
     (k = 0 → first_statement_fails e (glob_json_gz dir)) ∧
     (1 ≤ k < 6 → execute_fails e (S k) = true)).
Proof.
  intros Hrun%prepare_run_load Hfresh. rewrite Hfresh in Hrun.
  unfold load_directory, connect_and_build in Hrun. split_and!.
  - intros Hfiles. rewrite decide_True in Hrun by done. by injection Hrun as <- <-.
  - intros Hfiles Hconn. rewrite decide_False, Hconn in Hrun by done.
    by injection Hrun as <- <-.
  - intros Hfiles Hconn. rewrite decide_False, Hconn in Hrun by done. simpl in Hrun.
    destruct (build_tables e (glob_json_gz dir) empty_database) as [r d] eqn:Hbuild.
    apply build_tables_commits in Hbuild
      as (k & rows & Hk & -> & Hres & Hdone & Hdocs & Hfirst & Hnext).
    assert (1 ≤ k → rows = raw_data_expanded (documents dir)) as Hrows.
    { intros Hk1. destruct (Hdocs Hk1) as (docs & Hread & _ & ->).
      by apply read_json_documents in Hread as ->. }
    pose proof (all_or_nothing_committed k rows Hk) as Hall.
    exists k, rows. destruct r as [[]|]; injection Hrun as <- <-.
    + assert (k = 6) as Hk6 by by apply Hres.
      split_and!; try done. split; [done|lia].
    + assert (k < 6) as Hk6.
      { destruct (decide (k = 6)) as [Heq|]; [|lia]. by apply Hres in Heq. }
      split_and!; try done. split; [done|lia].
Qed.

Lemma load_keeps_completed_statements_witness :
  (json_files ex_dir = [] → Raised = Returned "OK" ∧ ex_partial = None) ∧
  (json_files ex_dir ≠ [] → connect_fails ex_env_fault = true →
   @Raised string = Raised ∧ ex_partial = None) ∧
  (json_files ex_dir ≠ [] → connect_fails ex_env_fault = false →
   ∃ k rows,
     k ≤ 6 ∧ ex_partial = Some (committed k rows) ∧
     (Raised = Returned "OK" ↔ k = 6) ∧ (@Raised string = Raised ↔ k < 6) ∧
     (all_or_nothing ex_partial ↔ k ≤ 1 ∨ k = 6) ∧
     (∀ n, 1 ≤ n ≤ k → execute_fails ex_env_fault n = false) ∧
     (1 ≤ k → rows = raw_data_expanded (documents ex_dir)) ∧
     (k = 0 → first_statement_fails ex_env_fault (glob_json_gz ex_dir)) ∧
     (1 ≤ k < 6 → execute_fails ex_env_fault (S k) = true)).
Proof.
  exact (load_keeps_completed_statements ex_env_fault ex_dir None Raised ex_partial
           ex_run_fault eq_refl).
Defined.

(** C3, as stated, fails: when the third statement ([CREATE TABLE
    positions]) raises, the run raises and leaves a database file with the
    Aircraft table and neither the Position table nor an index. *)
Lemma partial_store_after_failure :
  prepare_run ex_env_fault ex_dir None Raised ex_partial ∧
  ex_partial = Some (committed 2 (raw_data_expanded (documents ex_dir))) ∧
  ¬ all_or_nothing ex_partial.
Proof.
  assert (ex_partial = Some (committed 2 (raw_data_expanded (documents ex_dir))))
    as Heq by by vm_compute.
  split_and!; [apply ex_run_fault|done|].
  rewrite Heq, all_or_nothing_committed by lia. lia.
Qed.






(** C6, as the code has it: [download_data] returns the string ["OK"]
    for every partition and every [file_limit], whatever it stored; the
    count of files is the last value of its local counter and is not
    returned. *)
Theorem download_returns_ok e (file_limit : Z) :
  (∀ w, (S1.download_data e w file_limit).1 = Returned "OK") ∧
  (∀ w, (S4.download_data e w file_limit).1 = Returned "OK").
Proof. split; intros w; reflexivity. Qed.

(** C6, as stated, fails: a run that stores two files and a run that
    stores none return the same value, ["OK"], which is not the numeral of
    either count. *)
Lemma download_returns_ok_not_count :
  (S1.downloaded ex_fetcher ex_world_empty 2).1 = 2%Z ∧
  (S1.downloaded ex_fetcher ex_world_empty 0).1 = 0%Z ∧
  (S1.download_data ex_fetcher ex_world_empty 2).1 = Returned "OK" ∧
  (S1.download_data ex_fetcher ex_world_empty 0).1 = Returned "OK" ∧
  (S4.downloaded ex_fetcher ex_world4_empty 2).1 = 2%Z ∧
  (S4.download_data ex_fetcher ex_world4_empty 2).1 = Returned "OK" ∧
  "OK"%string ≠ pretty 2%Z ∧ "OK"%string ≠ pretty 0%Z.
Proof. split_and!; by vm_compute. Qed.




(** C8, as the code has it: on the store a load has left and with a
    Query Service that can read it, for a page size [1 ≤ num_results ≤
    2^62] every page of [list_aircraft] whose offset [page × num_results]
    is at most [2^62] is the slice of [num_results] rows at that offset of
    the Aircraft rows sorted by icao ascending, is itself sorted, and the
    pages put end to end give that whole sequence.  ([2^62] is the
    greatest [LIMIT] and [OFFSET] the engine takes.)  For a page size of
    [2^63] or more every page is empty. *)
Theorem list_aircraft_pages e q dir db db' w' (num_results : Z) :
  prepare_run e dir db (Returned "OK") db' →
  remove_database e db = None →
  S1.prepared_db w' = db' →
  connect_fails q = false → execute_fails q 1 = false →
  (1 ≤ num_results ≤ max_limit_value)%Z →
  let full := merge_sort by_icao (aircraft_relation db') in
  Sorted by_icao full ∧ full ≡ₚ aircraft_relation db' ∧
  (∀ page : nat, (Z.of_nat page * num_results ≤ max_limit_value)%Z →
     ∃ rows, S1.list_aircraft q w' num_results (Z.of_nat page) = Returned rows ∧
             rows = limit_offset (Z.to_nat num_results) (page * Z.to_nat num_results) full ∧
             Sorted by_icao rows) ∧
  (∀ k : nat, length full ≤ k * Z.to_nat num_results →
              (Z.of_nat k * num_results ≤ max_limit_value)%Z →
              first_pages q w' num_results k = full) ∧
  (∀ n page : Z, (2 ^ 63 ≤ n)%Z → S1.list_aircraft q w' n page = Returned []).
Proof.
  intros Hrun Hfresh Hw Hconn Hexec Hn full.
  assert (Sorted by_icao full) as Hsorted by apply (Sorted_merge_sort by_icao).
  split_and!.
  - done.
  - apply merge_sort_Permutation.
  - intros page Hpage. eexists.
    split; [by eapply list_aircraft_page; try done; lia|].
    split; [done|]. by apply Sorted_limit_offset; [apply _|].
  - intros k Hk Hmax. unfold first_pages.
    transitivity (take (k * Z.to_nat num_results) full); [|by apply take_ge].
    rewrite <-pages_concat. f_equal. apply list_fmap_ext.
    intros _ p [_ Hp]%list_elem_of_lookup_2%elem_of_seq.
    erewrite list_aircraft_page; try done; nia.
  - intros n page Hhuge. unfold S1.list_aircraft.
    destruct (S1.prepared_db w') as [d|]; [|done].
    unfold connect_and_query, select_aircraft_page. rewrite Hconn, Hexec.
    destruct (tbl_aircraft d) as [rows|]; [|done].
    unfold page_of. rewrite decide_False; [done|].
    unfold max_limit_value. lia.
Qed.

Lemma list_aircraft_pages_witness :
  let full := merge_sort by_icao (aircraft_relation ex_loaded) in
  Sorted by_icao full ∧ full ≡ₚ aircraft_relation ex_loaded ∧
  (∀ page : nat, (Z.of_nat page * 1 ≤ max_limit_value)%Z →
     ∃ rows, S1.list_aircraft ex_env ex_loaded_world 1 (Z.of_nat page) = Returned rows ∧
             rows = limit_offset (Z.to_nat 1) (page * Z.to_nat 1) full ∧
             Sorted by_icao rows) ∧
  (∀ k : nat, length full ≤ k * Z.to_nat 1 →
              (Z.of_nat k * 1 ≤ max_limit_value)%Z →
              first_pages ex_env ex_loaded_world 1 k = full) ∧
  (∀ n page : Z, (2 ^ 63 ≤ n)%Z →
     S1.list_aircraft ex_env ex_loaded_world n page = Returned []).
Proof.
  apply (list_aircraft_pages ex_env ex_env ex_dir None ex_loaded ex_loaded_world 1 ex_run);
    first [done | unfold max_limit_value; lia].
Defined.

(** C8, as stated, fails: the page size is any integer of the request.
    On the store the example load has left, which holds two aircraft, page
    0 for the page size [2^63] is empty, not the slice of the first [2^63]
    rows: the engine refuses the [LIMIT], and the handler of the endpoint
    answers the empty list. *)
Lemma huge_page_size_lists_nothing :
  prepare_run ex_env ex_dir None (Returned "OK") ex_loaded ∧
  S1.prepared_db ex_loaded_world = ex_loaded ∧
  (1 ≤ 2 ^ 63)%Z ∧
  S1.list_aircraft ex_env ex_loaded_world (2 ^ 63) 0 = Returned [] ∧
  limit_offset (Z.to_nat (2 ^ 63)) (0 * Z.to_nat (2 ^ 63))
    (merge_sort by_icao (aircraft_relation ex_loaded))
  = [ {| Aircraft.icao := Some "abc123"; Aircraft.registration := Some "N123AB";
         Aircraft.type := Some "B738" |};
      {| Aircraft.icao := Some "def456"; Aircraft.registration := None;
         Aircraft.type := Some "A320" |} ].
Proof.
  split_and!; [apply ex_run|done|lia|by vm_compute|].
  unfold limit_offset. rewrite Nat.mul_0_l, drop_0.
  assert (merge_sort by_icao (aircraft_relation ex_loaded)
          = [ {| Aircraft.icao := Some "abc123"; Aircraft.registration := Some "N123AB";
                 Aircraft.type := Some "B738" |};
              {| Aircraft.icao := Some "def456"; Aircraft.registration := None;
                 Aircraft.type := Some "A320" |} ]) as -> by by vm_compute.
  apply take_ge. cbn [length]. lia.
Qed.

(** C9, as the code has it: on a store that can be read,
    [had_emergency] is true if and only if a Position row of the icao
    carries a non-null, non-empty emergency flag; but the Loader gives
    every Position row a null flag, whatever the observation's field, so
    on the store a load has left [had_emergency] is false for every
    icao. *)
Theorem had_emergency_of_stored_flags q icao :
  (∀ w db rows,
     S1.prepared_db w = Some db → tbl_positions db = Some rows →
     connect_fails q = false → execute_fails q 1 = false →
     ∃ s, S1.get_aircraft_statistics q w icao = Returned s ∧
          (had_emergency s = true ↔
           ∃ p, p ∈ rows ∧ Positions.icao p = Some icao ∧
                ∃ flag, Positions.emergency p = Some flag ∧ flag ≠ ""%string)) ∧
  (∀ e dir db db' w',
     prepare_run e dir db (Returned "OK") db' →
     remove_database e db = None →
     S1.prepared_db w' = db' →
     Forall (λ p, Positions.emergency p = None) (position_relation db') ∧
     ∃ s, S1.get_aircraft_statistics q w' icao = Returned s ∧ had_emergency s = false).
Proof.
  split; [intros w db rows; apply had_emergency_iff|].
  intros e dir db db' w' Hrun Hfresh Hw.
  destruct (prepare_run_relations _ _ _ _ Hrun Hfresh) as [_ Hrel].
  assert (Forall (λ p, Positions.emergency p = None) (position_relation db')) as Hnone.
  { rewrite Hrel. apply select_positions_emergency. }
  split; [done|].
  destruct (get_aircraft_statistics_returned q w' icao) as (s & Hs & Hmiss & Hraise).
  exists s. split; [done|].
  destruct (had_emergency s) eqn:Hhad; [|done]. exfalso.
  destruct db' as [d|]; [|by rewrite (Hmiss Hw) in Hhad].
  destruct (connect_and_query q d (select_statistics icao)) as [r|] eqn:Hq;
    [|by rewrite (Hraise d Hw Hq) in Hhad].
  unfold connect_and_query in Hq.
  destruct (connect_fails q) eqn:Hconn; [done|].
  destruct (execute_fails q 1) eqn:Hexec; [done|].
  unfold select_statistics in Hq.
  destruct (tbl_positions d) as [rows|] eqn:Hrows; [|done].
  destruct (had_emergency_iff q w' d rows icao Hw Hrows Hconn Hexec) as (s' & Hs' & Hiff).
  rewrite Hs in Hs'. injection Hs' as <-.
  apply Hiff in Hhad as (p & Hin & _ & flag & Hflag & _).
  unfold position_relation in Hnone. simpl in Hnone. rewrite Hrows in Hnone.
  rewrite Forall_forall in Hnone. by rewrite (Hnone p Hin) in Hflag.
Qed.

Lemma had_emergency_of_stored_flags_witness :
  Forall (λ p, Positions.emergency p = None) (position_relation ex_loaded) ∧
  ∃ s, S1.get_aircraft_statistics ex_env ex_loaded_world "abc123" = Returned s ∧
       had_emergency s = false.
Proof.
  exact (proj2 (had_emergency_of_stored_flags ex_env "abc123")
           ex_env ex_dir None ex_loaded ex_loaded_world ex_run eq_refl eq_refl).
Defined.

(** C9, as stated, fails: the observation of ["abc123"] in the example
    has its icao, coordinates and timestamp and the emergency flag
    ["general"]; its Position row is retained, yet after the load the flag
    of every row is null and [had_emergency] is false. *)
Lemma emergency_flag_not_loaded :
  prepare_run ex_env ex_dir None (Returned "OK") ex_loaded ∧
  ex_obs ∈ observations ex_dir ∧ all_present ex_doc ex_obs ∧
  Obs.hex ex_obs = Some "abc123"%string ∧
  Obs.emergency ex_obs = Some "general"%string ∧
  position_of (expand ex_doc ex_obs) ∈ position_relation ex_loaded ∧
  Positions.emergency (position_of (expand ex_doc ex_obs)) = None ∧
  S1.get_aircraft_statistics ex_env ex_loaded_world "abc123"
  = Returned {| max_altitude_baro := None;
                max_ground_speed := Some 450.0%float;
                had_emergency := false |}.
Proof.
  assert (all_present ex_doc ex_obs) as Hpresent.
  { unfold all_present; simpl; eauto. }
  split_and!; try done.
  - apply ex_run.
  - unfold observations, documents. rewrite ex_dir_glob. left.
  - assert (position_relation ex_loaded
            = select_positions (raw_data_expanded (documents ex_dir))) as ->
      by by vm_compute.
    apply elem_of_select_positions. exists ex_doc, ex_obs. split_and!; try done.
    + unfold documents. rewrite ex_dir_glob. left.
    + left.
Qed.

(** C10: the three read operations of the Query Service return for
    every input, every store and every fault of the engine: none raises.
    When the database file is missing, and when opening or querying it
    raises (the connection fails, the statement fails, the table is
    missing, the page parameters are negative), [list_aircraft] and
    [get_aircraft_position] return the empty list and
    [get_aircraft_statistics] the object of nulls and false. *)
Theorem query_service_never_raises q w :
  (∀ num_results page,
     ∃ rows, S1.list_aircraft q w num_results page = Returned rows ∧
       (S1.prepared_db w = None → rows = []) ∧
       (∀ db, S1.prepared_db w = Some db →
              connect_and_query q db
                (select_aircraft_page num_results (page * num_results)) = Raised →
              rows = [])) ∧
  (∀ icao num_results page,
     ∃ rows, S1.get_aircraft_position q w icao num_results page = Returned rows ∧
       (S1.prepared_db w = None → rows = []) ∧
       (∀ db, S1.prepared_db w = Some db →
              connect_and_query q db
                (select_positions_page icao num_results (page * num_results)) = Raised →
              rows = [])) ∧
  (∀ icao,
     ∃ s, S1.get_aircraft_statistics q w icao = Returned s ∧
       (S1.prepared_db w = None → s = no_statistics) ∧
       (∀ db, S1.prepared_db w = Some db →
              connect_and_query q db (select_statistics icao) = Raised →
              s = no_statistics)).
Proof.
  split_and!.
  - intros num_results page. apply list_aircraft_returned.
  - intros icao num_results page. apply get_aircraft_position_returned.
  - intros icao. apply get_aircraft_statistics_returned.
Qed.

(** * Further properties *)

(** ** The pages of [get_aircraft_position] *)

#[global] Instance by_timestamp_total : Total by_timestamp.
Proof. intros a b. unfold by_timestamp. apply (total (nulls_last Z.le)). Qed.

#[global] Instance by_timestamp_trans : Transitive by_timestamp.
Proof. intros a b c. unfold by_timestamp. apply transitivity. Qed.

#[global] Instance by_pd_timestamp_trans : Transitive by_pd_timestamp.
Proof. intros a b c. unfold by_pd_timestamp. apply transitivity. Qed.

Lemma get_aircraft_position_page q w db rows icao (num_results : Z) (page : nat) :
  S1.prepared_db w = Some db → tbl_positions db = Some rows →
  connect_fails q = false → execute_fails q 1 = false →
  (0 ≤ num_results ≤ max_limit_value)%Z →
  (Z.of_nat page * num_results ≤ max_limit_value)%Z →
  S1.get_aircraft_position q w icao num_results (Z.of_nat page)
  = Returned (limit_offset (Z.to_nat num_results) (page * Z.to_nat num_results)
                (position_dict_of <$> merge_sort by_timestamp (filter (located icao) rows))).
Proof.
  intros Hdb Hrows Hconn Hexec Hn Hoffset. unfold S1.get_aircraft_position. rewrite Hdb.
  unfold connect_and_query. rewrite Hconn, Hexec.
  unfold select_positions_page. rewrite Hrows. unfold page_of.
  rewrite decide_True by lia. simpl.
  by rewrite Z2Nat.inj_mul, Nat2Z.id by lia.
Qed.



(** ** An aircraft without a Position row *)

(** X2: for an icao that no stored Position row carries (an aircraft
    that is not found), [get_aircraft_position] returns the empty list for
    every page size and page, and [get_aircraft_statistics] returns the
    object of nulls and false, whatever the store and the faults of the
    engine. *)
Theorem unknown_aircraft_has_no_data q w icao :
  (∀ p, p ∈ position_relation (S1.prepared_db w) → Positions.icao p ≠ Some icao) →
  (∀ num_results page,
     S1.get_aircraft_position q w icao num_results page = Returned []) ∧
  S1.get_aircraft_statistics q w icao = Returned no_statistics.
Proof.
  intros Hnone. unfold S1.get_aircraft_position, S1.get_aircraft_statistics.
  destruct (S1.prepared_db w) as [db|]; [|done].
  unfold connect_and_query, select_positions_page, select_statistics.
  destruct (connect_fails q); [done|]. destruct (execute_fails q 1); [done|].
  unfold position_relation in Hnone. simpl in Hnone.
  destruct (tbl_positions db) as [rows|]; [|done]. simpl in Hnone.
  assert (filter (λ x, Positions.icao x = Some icao) rows = []) as Hsel.
  { apply filter_none. intros p Hp. by apply Hnone. }
  split.
  - intros num_results page.
    rewrite filter_none by (intros p Hp [Hicao _]; by apply (Hnone p)).
    unfold page_of. case_decide; [|done]. cbn. by rewrite limit_offset_nil.
  - by rewrite Hsel.
Qed.

Lemma ex_unknown_aircraft :
  ∀ p, p ∈ position_relation (S1.prepared_db ex_loaded_world) →
       Positions.icao p ≠ Some "ffffff"%string.
Proof.
  intros p Hp. change (S1.prepared_db ex_loaded_world) with ex_loaded in Hp.
  rewrite ex_position_relation in Hp. by apply list_elem_of_singleton in Hp as ->.
Qed.

Lemma unknown_aircraft_has_no_data_witness :
  (∀ num_results page,
     S1.get_aircraft_position ex_env ex_loaded_world "ffffff" num_results page
     = Returned []) ∧
  S1.get_aircraft_statistics ex_env ex_loaded_world "ffffff" = Returned no_statistics.
Proof.
  exact (unknown_aircraft_has_no_data ex_env ex_loaded_world "ffffff" ex_unknown_aircraft).
Defined.

(** ** [MAX] *)

Section sql_max_facts.
Context {A : Type} (le : relation A) `{!RelDecision le}.

Lemma sql_max_None (column : list (option A)) :
  sql_max le column = None ↔ ∀ x, x ∈ column → x = None.
Proof.
  induction column as [|x column IH]; simpl.
  { split; [|done]. by intros _ x ?%elem_of_nil. }
  destruct x as [a|].
  - split.
    + by destruct (sql_max le column).
    + intros H. by specialize (H (Some a) (list_elem_of_here _ _)).
  - rewrite IH. split.
    + intros H x [->|Hx]%elem_of_cons; auto.
    + intros H x Hx. apply H. by right.
Qed.

Lemma sql_max_elem_of (column : list (option A)) (m : A) :
  sql_max le column = Some m → Some m ∈ column.
Proof.
  revert m. induction column as [|x column IH]; intros m; simpl; [done|].
  destruct x as [a|].
  - destruct (sql_max le column) as [b|].
    + intros [= <-]. unfold greater. case_decide.
      * right. by apply IH.
      * left.
    + intros [= <-]. left.
  - intros H. right. by apply IH.
Qed.

Lemma sql_max_upper_bound `{!Total le, !Transitive le} (column : list (option A)) (m a : A) :
  sql_max le column = Some m → Some a ∈ column → le a m.
Proof.
  assert (Reflexive le) as Hrefl.
  { intros x. by destruct (total le x x). }
  revert m. induction column as [|x column IH]; intros m; simpl; [done|].
  intros Hmax [Hx|Hin]%elem_of_cons.
  - subst x. destruct (sql_max le column) as [b|]; injection Hmax as <-; [|done].
    unfold greater. by case_decide.
  - destruct x as [c|]; [|by apply IH].
    destruct (sql_max le column) as [b|] eqn:Hb.
    + injection Hmax as <-. specialize (IH b eq_refl Hin).
      unfold greater. case_decide as Hcb; [done|].
      destruct (total le c b) as [?|Hbc]; [done|]. by transitivity b.
    + by specialize (proj1 (sql_max_None column) Hb _ Hin).
Qed.

End sql_max_facts.

(** X3: on a store that can be read, [max_altitude_baro] of
    [get_aircraft_statistics] is null exactly when no stored Position row
    of the icao has an altitude; otherwise it is the altitude of one of
    these rows and no row of the icao has a greater one.
    [max_ground_speed] is null exactly when no row of the icao has a
    ground speed, and otherwise is the ground speed of one of them. *)
Theorem statistics_are_maxima q w db rows icao :
  S1.prepared_db w = Some db → tbl_positions db = Some rows →
  connect_fails q = false → execute_fails q 1 = false →
  ∃ s, S1.get_aircraft_statistics q w icao = Returned s ∧
    (max_altitude_baro s = None ↔
     ∀ p, p ∈ rows → Positions.icao p = Some icao → Positions.altitude_baro p = None) ∧
    (∀ m, max_altitude_baro s = Some m →
       (∃ p, p ∈ rows ∧ Positions.icao p = Some icao ∧ Positions.altitude_baro p = Some m) ∧
       ∀ p a, p ∈ rows → Positions.icao p = Some icao →
              Positions.altitude_baro p = Some a → (a ≤ m)%Z) ∧
    (max_ground_speed s = None ↔
     ∀ p, p ∈ rows → Positions.icao p = Some icao → Positions.ground_speed p = None) ∧
    (∀ g, max_ground_speed s = Some g →
       ∃ p, p ∈ rows ∧ Positions.icao p = Some icao ∧ Positions.ground_speed p = Some g).
Proof.
  intros Hdb Hrows Hconn Hexec. unfold S1.get_aircraft_statistics.
  rewrite Hdb. unfold connect_and_query. rewrite Hconn, Hexec.
  unfold select_statistics. rewrite Hrows. eexists. split; [done|]. simpl.
  set (selected := filter (λ x, Positions.icao x = Some icao) rows).
  assert (∀ {B : Type} (f : Positions.row → option B) (x : option B),
            x ∈ f <$> selected ↔
            ∃ p, p ∈ rows ∧ Positions.icao p = Some icao ∧ f p = x) as Hsel.
  { intros B f x. unfold selected. rewrite list_elem_of_fmap.
    setoid_rewrite list_elem_of_filter. split.
    - intros (p & -> & Hicao & Hin). eauto.
    - intros (p & Hin & Hicao & <-). eauto. }
  split_and!.
  - rewrite sql_max_None. split.
    + intros H p Hin Hicao. apply H, Hsel. eauto.
    + intros H x (p & Hin & Hicao & <-)%Hsel. by apply H.
  - intros m Hm. split.
    + apply sql_max_elem_of, Hsel in Hm as (p & Hin & Hicao & Hp). eauto.
    + intros p a Hin Hicao Ha. apply (sql_max_upper_bound Z.le _ m a Hm).
      apply Hsel. eauto.
  - rewrite sql_max_None. split.
    + intros H p Hin Hicao. apply H, Hsel. eauto.
    + intros H x (p & Hin & Hicao & <-)%Hsel. by apply H.
  - intros g Hg. apply sql_max_elem_of, Hsel in Hg as (p & Hin & Hicao & Hp). eauto.
Qed.

Lemma statistics_are_maxima_witness :
  ∃ s, S1.get_aircraft_statistics ex_env ex_loaded_world "abc123" = Returned s ∧
    (max_altitude_baro s = None ↔
     ∀ p, p ∈ position_relation ex_loaded → Positions.icao p = Some "abc123"%string →
          Positions.altitude_baro p = None) ∧
    (∀ m, max_altitude_baro s = Some m →
       (∃ p, p ∈ position_relation ex_loaded ∧ Positions.icao p = Some "abc123"%string ∧
             Positions.altitude_baro p = Some m) ∧
       ∀ p a, p ∈ position_relation ex_loaded → Positions.icao p = Some "abc123"%string →
              Positions.altitude_baro p = Some a → (a ≤ m)%Z) ∧
    (max_ground_speed s = None ↔
     ∀ p, p ∈ position_relation ex_loaded → Positions.icao p = Some "abc123"%string →
          Positions.ground_speed p = None) ∧
    (∀ g, max_ground_speed s = Some g →
       ∃ p, p ∈ position_relation ex_loaded ∧ Positions.icao p = Some "abc123"%string ∧
            Positions.ground_speed p = Some g).
Proof.
  apply (statistics_are_maxima ex_env ex_loaded_world ex_db
           (position_relation ex_loaded) "abc123"); reflexivity.
Defined.

(** ** The registration and the type of an aircraft *)






(** ** A numeric altitude *)





(** ** What [download_data] leaves in the store *)

Section foldl_insert.
Context {C : Type} (key : string → string) (val : string → C).

Lemma lookup_foldl_insert_not_elem_of (names : list string) (m : gmap string C) (k : string) :
  k ∉ key <$> names →
  foldl (λ m f, <[key f := val f]> m) m names !! k = m !! k.
Proof.
  revert m. induction names as [|a names IH]; intros m; csimpl; [done|].
  rewrite not_elem_of_cons. intros [Hne Hnot].
  by rewrite IH, lookup_insert_ne by done.
Qed.

Lemma lookup_foldl_insert `{!Inj (=) (=) key} (names : list string) (m : gmap string C)
    (f : string) :
  f ∈ names → foldl (λ m f, <[key f := val f]> m) m names !! key f = Some (val f).
Proof.
  revert m. induction names as [|a names IH]; intros m; csimpl.
  { by intros ?%elem_of_nil. }
  destruct (decide (f ∈ names)) as [Hin|Hnot]; [by auto|].
  intros [->|?]%elem_of_cons; [|done].
  rewrite lookup_foldl_insert_not_elem_of.
  - by rewrite lookup_insert_eq.
  - rewrite list_elem_of_fmap. by intros (f' & ->%(inj key) & Hf').
Qed.

End foldl_insert.

Lemma download_loop_stores {St : Type} (e : fetcher_env)
    (put : St → string → raw_file → outcome St)
    (store_fails : string → bool) (ins : St → string → raw_file → St)
    (file_limit : Z) (st : St) :
  (∀ st f c, put st f c = if store_fails f then Raised else Returned (ins st f c)) →
  (download_loop e put file_limit filenames 0%Z st).2
  = foldl (λ s f, ins s f (body e f)) st (stored_files e store_fails file_limit).
Proof.
  intros Hput. rewrite (download_loop_spec e put store_fails ins) by done.
  cbv zeta. by rewrite Z.sub_0_r.
Qed.

Lemma s1_downloaded_lookup e w (file_limit : Z) (f : string) :
  (S1.downloaded e w file_limit).2 !! f
  = if decide (f ∈ stored_files e (open_fails e) file_limit) then Some (body e f)
    else if unlink_fails e f then default ∅ (S1.raw_dir w) !! f else None.
Proof.
  unfold S1.downloaded.
  rewrite (download_loop_stores e (S1.write_file e) (open_fails e)
             (λ dir f c, <[f := c]> dir)) by done.
  case_decide as Hin.
  - by apply (lookup_foldl_insert id (body e)).
  - rewrite (lookup_foldl_insert_not_elem_of id (body e)) by by rewrite list_fmap_id.
    unfold S1.clean. rewrite map_lookup_filter.
    destruct (default ∅ (S1.raw_dir w) !! f) as [c|] eqn:Hf; simpl.
    + destruct (unlink_fails e f) eqn:Hu.
      * by rewrite option_guard_True.
      * by rewrite option_guard_False.
    + by destruct (unlink_fails e f).
Qed.


Lemma s1_downloaded_again e w db (file_limit : Z) :
  (S1.downloaded e {| S1.raw_dir := Some (S1.downloaded e w file_limit).2;
                      S1.prepared_db := db |} file_limit).2
  = (S1.downloaded e w file_limit).2.
Proof.
  apply map_eq. intros f.
  pose proof (s1_downloaded_lookup e w file_limit f) as Hfirst.
  rewrite s1_downloaded_lookup. cbn [S1.raw_dir default].
  rewrite Hfirst. case_decide; [reflexivity|]. by destruct (unlink_fails e f).
Qed.

(** X7: [download_data] of [s1] is idempotent: with the same source and
    the same faults, a second run with the same [file_limit] leaves the
    world the first run left. *)
Theorem download_data_idempotent e w (file_limit : Z) :
  S1.download_data e (S1.download_data e w file_limit).2 file_limit
  = S1.download_data e w file_limit.
Proof.
  unfold S1.download_data. cbn [snd S1.prepared_db].
  by rewrite s1_downloaded_again.
Qed.

(** ** The partition of the bucket *)

Lemma s4_clean_lookup e (b : gmap string raw_file) (k : string) :
  S4.clean e b !! k
  = if list_fails e || delete_objects_fails e then b !! k
    else if decide (k ∈ list_objects_v2 b s3_prefix) then None else b !! k.
Proof.
  unfold S4.clean. destruct (list_fails e); [done|]. cbn [orb].
  destruct (list_objects_v2 b s3_prefix) as [|key keys] eqn:Hlist.
  { destruct (delete_objects_fails e); [done|]. rewrite decide_False; [done|].
    by intros ?%elem_of_nil. }
  destruct (delete_objects_fails e); [done|]. case_decide as Hin.
  - by apply lookup_foldr_delete.
  - by apply lookup_foldr_delete_not_elem_of.
Qed.

Lemma s4_downloaded_eq e w (file_limit : Z) :
  (S4.downloaded e w file_limit).2
  = foldl (λ b f, <[s3_prefix +:+ f := body e f]> b) (S4.clean e (S4.bucket w))
      (stored_files e (λ f, put_object_fails e (s3_prefix +:+ f)) file_limit).
Proof.
  unfold S4.downloaded.
  by rewrite (download_loop_stores e (S4.put_object e)
                (λ f, put_object_fails e (s3_prefix +:+ f))
                (λ b f c, <[s3_prefix +:+ f := c]> b)).
Qed.

(** X8: [download_data] of [s4] never touches an object outside the
    partition: a key that does not start with [raw/day=20231101/] holds
    after the run what it held before, whatever the source, the
    [file_limit] and the faults. *)
Theorem s4_download_keeps_other_keys e w (file_limit : Z) (k : string) :
  String.prefix s3_prefix k = false →
  S4.bucket (S4.download_data e w file_limit).2 !! k = S4.bucket w !! k.
Proof.
  intros Hk. unfold S4.download_data. cbn [snd S4.bucket].
  rewrite s4_downloaded_eq.
  rewrite (lookup_foldl_insert_not_elem_of (λ f, s3_prefix +:+ f) (body e)).
  - rewrite s4_clean_lookup. destruct (_ || _); [done|].
    rewrite decide_False; [done|].
    intros [Hp _]%elem_of_list_objects_v2. by rewrite Hp in Hk.
  - rewrite list_elem_of_fmap. intros (f & -> & _). by rewrite prefix_app in Hk.
Qed.

Lemma s4_download_keeps_other_keys_witness :
  S4.bucket (S4.download_data ex_fetcher ex_world4_other 2).2 !! "notes/readme.txt"
  = S4.bucket ex_world4_other !! "notes/readme.txt".
Proof.
  apply (s4_download_keeps_other_keys ex_fetcher ex_world4_other 2 "notes/readme.txt").
  reflexivity.
Defined.

(** X9: when the listing and the deletion of the cleaning step succeed
    and the partition holds at most 1000 objects, [download_data] of [s4]
    replaces the partition: afterwards the key [raw/day=20231101/f] holds
    the fetched content when [f] is one of the candidates stored by this
    run, and nothing otherwise; every key of the partition is of that
    form. *)
Theorem s4_download_replaces_partition e w (file_limit : Z) :
  list_fails e = false → delete_objects_fails e = false →
  length (filter (λ k, String.prefix s3_prefix k = true) (sorted_names (S4.bucket w)))
  ≤ 1000 →
  (∀ f, S4.bucket (S4.download_data e w file_limit).2 !! (s3_prefix +:+ f)
        = if decide (f ∈ stored_files e (λ f, put_object_fails e (s3_prefix +:+ f))
                           file_limit)
          then Some (body e f) else None) ∧
  (∀ k, String.prefix s3_prefix k = true → ∃ f, k = s3_prefix +:+ f).
Proof.
  intros Hlist Hdelete Hlen. split; [|intros k; apply prefix_inv].
  intros f. unfold S4.download_data. cbn [snd S4.bucket].
  rewrite s4_downloaded_eq. case_decide as Hin.
  - by apply (lookup_foldl_insert (λ f, s3_prefix +:+ f) (body e)).
  - rewrite (lookup_foldl_insert_not_elem_of (λ f, s3_prefix +:+ f) (body e)).
    + rewrite s4_clean_lookup, Hlist, Hdelete. cbn [orb].
      case_decide as Hlisted; [done|].
      destruct (S4.bucket w !! (s3_prefix +:+ f)) as [c|] eqn:Hc; [|done].
      destruct Hlisted. unfold list_objects_v2. rewrite take_ge by done.
      apply list_elem_of_filter. split; [apply prefix_app|].
      apply elem_of_sorted_names. by rewrite Hc.
    + rewrite list_elem_of_fmap. by intros (f' & ->%(inj _) & Hf').
Qed.

Lemma ex_bucket_small :
  length (filter (λ k, String.prefix s3_prefix k = true) (sorted_names (S4.bucket ex_world4)))
  ≤ 1000.
Proof. apply (bool_decide_unpack _). by vm_compute. Qed.

Lemma s4_download_replaces_partition_witness :
  (∀ f, S4.bucket (S4.download_data ex_fetcher ex_world4 2).2 !! (s3_prefix +:+ f)
        = if decide (f ∈ stored_files ex_fetcher
                           (λ f, put_object_fails ex_fetcher (s3_prefix +:+ f)) 2)
          then Some (body ex_fetcher f) else None) ∧
  (∀ k, String.prefix s3_prefix k = true → ∃ f, k = s3_prefix +:+ f).
Proof.
  exact (s4_download_replaces_partition ex_fetcher ex_world4 2 eq_refl eq_refl
           ex_bucket_small).
Defined.

(** X10: the cleaning step of [download_data] of [s4] lists the
    partition once, and one listing holds at most 1000 keys: an object of
    the partition that comes after the first 1000 in key order, and that
    this run does not store, is still there after the run. *)
Theorem s4_clean_leaves_objects_past_1000 e w (file_limit : Z) (k : string) :
  k ∈ drop 1000 (filter (λ k, String.prefix s3_prefix k = true)
                    (sorted_names (S4.bucket w))) →
  k ∉ (λ f, s3_prefix +:+ f)
        <$> stored_files e (λ f, put_object_fails e (s3_prefix +:+ f)) file_limit →
  S4.bucket (S4.download_data e w file_limit).2 !! k = S4.bucket w !! k.
Proof.
  intros Hk Hnot. unfold S4.download_data. cbn [snd S4.bucket].
  rewrite s4_downloaded_eq.
  rewrite (lookup_foldl_insert_not_elem_of (λ f, s3_prefix +:+ f) (body e)) by done.
  rewrite s4_clean_lookup. destruct (_ || _); [done|].
  rewrite decide_False; [done|]. unfold list_objects_v2. intros Htake.
  assert (NoDup (filter (λ k, String.prefix s3_prefix k = true)
                   (sorted_names (S4.bucket w)))) as Hnodup.
  { apply NoDup_filter, NoDup_sorted_names. }
  rewrite <-(take_drop 1000) in Hnodup.
  apply NoDup_app in Hnodup as (_ & Hdisj & _). by apply (Hdisj k).
Qed.

Lemma ex_bucket_large_last :
  "raw/day=20231101/obj999"%string
  ∈ drop 1000 (filter (λ k, String.prefix s3_prefix k = true)
                 (sorted_names (S4.bucket ex_world4_large))).
Proof. apply (bool_decide_unpack _). by vm_compute. Qed.

Lemma ex_bucket_large_not_stored :
  "raw/day=20231101/obj999"%string
  ∉ (λ f, s3_prefix +:+ f)
      <$> stored_files ex_fetcher (λ f, put_object_fails ex_fetcher (s3_prefix +:+ f)) 2.
Proof. apply (bool_decide_unpack _). by vm_compute. Qed.

Lemma s4_clean_leaves_objects_past_1000_witness :
  S4.bucket (S4.download_data ex_fetcher ex_world4_large 2).2 !! "raw/day=20231101/obj999"
  = S4.bucket ex_world4_large !! "raw/day=20231101/obj999".
Proof.
  exact (s4_clean_leaves_objects_past_1000 ex_fetcher ex_world4_large 2
           "raw/day=20231101/obj999" ex_bucket_large_last ex_bucket_large_not_stored).
Defined.

(** ** What [prepare_data] of [s4] copies *)

(** X11: when the listing does not raise, the temporary directory of
    [prepare_data] of [s4] holds, under each base name, the content of the
    last listed object with that base name that is copied (its key is not
    the prefix and ends with [.json.gz], its download does not raise), and
    no file under a name that no copied object has.  So of two objects
    with the same base name only the later one is loaded. *)
Theorem s4_temp_dir_contents e w (f : string) :
  list_objects_fails e = false →
  S4.loaded_dir e w !! f
  = match last (filter (λ k, copied e (S4.bucket w) k ∧ basename k = f)
                  (list_objects_v2 (S4.bucket w) s3_prefix)) with
    | Some k => S4.bucket w !! k
    | None => None
    end.
Proof.
  intros Hlist. unfold S4.loaded_dir, S4.temp_dir. rewrite Hlist.
  by rewrite foldl_download_file_lookup, lookup_empty.
Qed.

Lemma ex_nested_last :
  last (filter (λ k, copied ex_env (S4.bucket ex_world4_nested) k ∧
                     basename k = "000000Z.json.gz"%string)
          (list_objects_v2 (S4.bucket ex_world4_nested) s3_prefix))
  = Some "raw/day=20231101/b/000000Z.json.gz"%string.
Proof. by vm_compute. Qed.

Lemma s4_temp_dir_contents_witness :
  S4.loaded_dir ex_env ex_world4_nested !! "000000Z.json.gz"
  = S4.bucket ex_world4_nested !! "raw/day=20231101/b/000000Z.json.gz".
Proof.
  rewrite <-(f_equal (λ r, match r with
                           | Some k => S4.bucket ex_world4_nested !! k
                           | None => None
                           end) ex_nested_last).
  exact (s4_temp_dir_contents ex_env ex_world4_nested "000000Z.json.gz" eq_refl).
Defined.

(** ** From the Fetcher to the Loader *)








(** ** A database file that cannot be removed *)

Lemma load_directory_stale e dir old :
  is_Some (tbl_aircraft old) →
  (load_directory e dir (Some old)).2 = Some old ∧
  (json_files dir ≠ [] → (load_directory e dir (Some old)).1 = Raised) ∧
  (json_files dir = [] → (load_directory e dir (Some old)).1 = Returned "OK").
Proof.
  intros [rows Hrows]. unfold load_directory. case_decide as Hfiles.
  { by split_and!. }
  assert (build_tables e (glob_json_gz dir) old = (Raised, old)) as Hbuild.
  { unfold build_tables, mbind, db_bind, execute, create_raw_data_expanded.
    destruct (execute_fails e 1); [done|].
    destruct (read_json (glob_json_gz dir)) as [docs|]; [|done].
    destruct (binds e docs); [|done].
    destruct (execute_fails e 2); [done|].
    unfold create_table_aircraft. by rewrite Hrows. }
  unfold connect_and_build. destruct (connect_fails e); [by split_and!|].
  change (default empty_database (Some old)) with old. rewrite Hbuild. by split_and!.
Qed.

(** X13: when [os.remove] raises on a database file that holds the
    table [aircraft], a run of [prepare_data] over at least one [.json.gz]
    file raises ([CREATE TABLE aircraft] meets the old table) and the file
    stays as it was: the store keeps the tables of the previous load.
    Without a [.json.gz] file the run returns ["OK"], the old file
    untouched. *)
Theorem stale_database_is_kept e files old res db' :
  load_run e files (Some old) res db' →
  remove_fails e = true → is_Some (tbl_aircraft old) →
  db' = Some old ∧
  ((∃ name, raw_name name ∧ is_Some (files !! name)) → res = Raised) ∧
  ((∀ name, raw_name name → files !! name = None) → res = Returned "OK").
Proof.
  intros Hrun%load_run_load Hremove Hold.
  unfold remove_database in Hrun. rewrite Hremove in Hrun.
  destruct (load_directory_stale e files old Hold) as (Hdb & Hraise & Hok).
  rewrite Hrun in Hdb, Hraise, Hok. split_and!; [done|..].
  - intros (name & Hname%raw_name_endswith & Hsome). apply Hraise. intros Hnil.
    assert (name ∈ json_files files) as Hin by by apply elem_of_json_files.
    rewrite Hnil in Hin. by apply elem_of_nil in Hin.
  - intros Hnone. apply Hok.
    destruct (json_files files) as [|f fs] eqn:Hfiles; [done|].
    assert (f ∈ json_files files) as [Hf%raw_name_endswith [c Hc]]%elem_of_json_files
      by (rewrite Hfiles; left).
    by rewrite (Hnone f Hf) in Hc.
Qed.

Lemma ex_load_run_stale :
  load_run ex_env_stale ex_dir_airborne (Some ex_db) Raised (Some ex_db).
Proof.
  by apply (load_run_s1 ex_env_stale ex_dir_airborne ex_world_stale
              (S1.prepare_data ex_env_stale ex_world_stale).2).
Qed.

Lemma stale_database_is_kept_witness :
  Some ex_db = Some ex_db ∧
  ((∃ name, raw_name name ∧ is_Some (ex_dir_airborne !! name)) → @Raised string = Raised) ∧
  ((∀ name, raw_name name → ex_dir_airborne !! name = None) →
   Raised = Returned "OK"%string).
Proof.
  apply (stale_database_is_kept ex_env_stale ex_dir_airborne ex_db Raised (Some ex_db)
           ex_load_run_stale eq_refl).
  by eexists.
Defined.

(** ** Running [prepare_data] again *)

Lemma remove_database_removes e db : remove_fails e = false → remove_database e db = None.
Proof. intros He. unfold remove_database. destruct db; by rewrite ?He. Qed.

(** X14: when the old database file can be removed, what
    [prepare_data] (of [s1] and of [s4]) returns and leaves does not depend
    on the database file it finds, and running it a second time on the
    same raw files returns and leaves the same again. *)
Theorem prepare_data_forgets_old_database e :
  remove_fails e = false →
  (∀ w db, S1.prepare_data e {| S1.raw_dir := S1.raw_dir w; S1.prepared_db := db |}
           = S1.prepare_data e w) ∧
  (∀ w db, S4.prepare_data e {| S4.bucket := S4.bucket w; S4.prepared_db := db |}
           = S4.prepare_data e w) ∧
  (∀ w, S1.prepare_data e (S1.prepare_data e w).2 = S1.prepare_data e w) ∧
  (∀ w, S4.prepare_data e (S4.prepare_data e w).2 = S4.prepare_data e w).
Proof.
  intros He.
  assert (∀ w db, S1.prepare_data e {| S1.raw_dir := S1.raw_dir w; S1.prepared_db := db |}
                  = S1.prepare_data e w) as H1.
  { intros w db. unfold S1.prepare_data. cbn [S1.raw_dir S1.prepared_db].
    by rewrite !remove_database_removes. }
  assert (∀ w db, S4.prepare_data e {| S4.bucket := S4.bucket w; S4.prepared_db := db |}
                  = S4.prepare_data e w) as H4.
  { intros w db. unfold S4.prepare_data. cbn [S4.bucket S4.prepared_db].
    by rewrite !remove_database_removes. }
  split_and!; [done..| |].
  - intros w. rewrite <-(H1 w (S1.prepared_db (S1.prepare_data e w).2)) at 2.
    f_equal. unfold S1.prepare_data. by destruct (S1.raw_dir w).
  - intros w. rewrite <-(H4 w (S4.prepared_db (S4.prepare_data e w).2)) at 2.
    f_equal. unfold S4.prepare_data. destruct (list_objects_fails e); [done|].
    by destruct (list_objects_v2 (S4.bucket w) s3_prefix).
Qed.

Lemma prepare_data_forgets_old_database_witness :
  (∀ w db, S1.prepare_data ex_env {| S1.raw_dir := S1.raw_dir w; S1.prepared_db := db |}
           = S1.prepare_data ex_env w) ∧
  (∀ w db, S4.prepare_data ex_env {| S4.bucket := S4.bucket w; S4.prepared_db := db |}
           = S4.prepare_data ex_env w) ∧
  (∀ w, S1.prepare_data ex_env (S1.prepare_data ex_env w).2 = S1.prepare_data ex_env w) ∧
  (∀ w, S4.prepare_data ex_env (S4.prepare_data ex_env w).2 = S4.prepare_data ex_env w).
Proof. exact (prepare_data_forgets_old_database ex_env eq_refl). Defined.

(** ** Page parameters that are negative *)

(** X15: for a negative page size, and for a page and a page size whose
    product is negative, [list_aircraft] and [get_aircraft_position] return
    the empty list, whatever the store holds: the engine refuses the
    negative [LIMIT] or [OFFSET] and the handler answers [[]]. *)
Theorem negative_page_is_empty q w icao (num_results page : Z) :
  (num_results < 0 ∨ page * num_results < 0)%Z →
  S1.list_aircraft q w num_results page = Returned [] ∧
  S1.get_aircraft_position q w icao num_results page = Returned [].
Proof.
  intros Hneg. unfold S1.list_aircraft, S1.get_aircraft_position.
  destruct (S1.prepared_db w) as [db|]; [|done].
  unfold connect_and_query, select_aircraft_page, select_positions_page, page_of.
  destruct (connect_fails q); [done|]. destruct (execute_fails q 1); [done|].
  destruct (tbl_aircraft db), (tbl_positions db); by rewrite ?decide_False by lia.
Qed.

Lemma negative_page_is_empty_witness :
  S1.list_aircraft ex_env ex_loaded_world (-1) 0 = Returned [] ∧
  S1.get_aircraft_position ex_env ex_loaded_world "abc123" (-1) 0 = Returned [].
Proof.
  apply (negative_page_is_empty ex_env ex_loaded_world "abc123" (-1) 0). lia.
Defined.

(** ** The positions of an aircraft, from the raw files to the endpoint *)

Lemma tracked_positions_of_observations icao d (l : list Obs.observation) :
  position_dict_of
    <$> filter (located icao) ((λ o, position_of (expand d o)) <$> filter (all_present d) l)
  = tracked_position
      <$> filter (λ x : document * Obs.observation,
                    Obs.hex x.2 = Some icao ∧ all_present x.1 x.2)
            ((λ o, (d, o)) <$> l).
Proof.
  induction l as [|o l IH]; [done|]. rewrite fmap_cons.
  destruct (decide (all_present d o)) as [Hp|Hp].
  - rewrite (filter_cons_True (all_present d)) by done. rewrite fmap_cons.
    destruct (decide (Obs.hex o = Some icao)) as [Hhex|Hhex].
    + rewrite (filter_cons_True (located icao)), filter_cons_True; [|done|].
      * rewrite !fmap_cons. by rewrite IH.
      * destruct Hp as (_ & Hlat & Hlon & _). by split_and!.
    + rewrite (filter_cons_False (located icao)), filter_cons_False; [done|..].
      * by intros [? _].
      * by intros [? _].
  - rewrite (filter_cons_False (all_present d)) by done.
    rewrite filter_cons_False; [done|]. by intros [_ ?].
Qed.

Lemma tracked_positions_of_documents icao docs :
  position_dict_of
    <$> filter (located icao) (position_of <$> filter retained (raw_data_expanded docs))
  = tracked_position
      <$> filter (λ x : document * Obs.observation,
                    Obs.hex x.2 = Some icao ∧ all_present x.1 x.2)
            (d ← docs; (λ o, (d, o)) <$> unnest d).
Proof.
  rewrite positions_of_documents.
  induction docs as [|d docs IH]; [done|].
  rewrite !bind_cons, !filter_app, !fmap_app, IH.
  by rewrite tracked_positions_of_observations.
Qed.

(** X16: after a load of raw files whose icao values are identifiers
    and whose timestamps are 64-bit integers, [get_aircraft_position]
    returns for an icao, on page 0 of a page size that covers them (and is
    at most [2^62]), the timestamp and the coordinates of exactly the
    observations of that icao, in the files named [*.json.gz], whose
    latitude, longitude and document timestamp are present, each once, in
    ascending order of timestamp. *)
Theorem loaded_positions_of_aircraft e q files db db' w' icao (num_results : Z) :
  load_run e files db (Returned "OK") db' →
  remove_database e db = None →
  icaos_read_as_text files → timestamps_read_as_integers files →
  S1.prepared_db w' = db' →
  connect_fails q = false → execute_fails q 1 = false →
  let tracked :=
    tracked_position
      <$> filter (λ x : document * Obs.observation,
                    Obs.hex x.2 = Some icao ∧ all_present x.1 x.2)
            (store_observations files) in
  (Z.of_nat (length tracked) ≤ num_results ≤ max_limit_value)%Z →
  ∃ rows, S1.get_aircraft_position q w' icao num_results 0 = Returned rows ∧
          rows ≡ₚ tracked ∧ Sorted by_pd_timestamp rows.
Proof.
  intros Hrun Hfresh _ _ Hw Hconn Hexec tracked Hlen.
  destruct (load_run_relations _ _ _ _ Hrun Hfresh) as [_ Hrel].
  assert (position_dict_of <$> filter (located icao) (position_relation db') ≡ₚ tracked)
    as Htracked.
  { rewrite Hrel, select_positions_Permutation. unfold tracked.
    by rewrite tracked_positions_of_documents, store_observations_documents. }
  assert (position_relation db' = [] →
          ∃ rows, Returned [] = Returned rows ∧ rows ≡ₚ tracked ∧
                  Sorted by_pd_timestamp rows) as Hempty.
  { intros Hnil. exists []. rewrite Hnil in Htracked. split_and!; [done..|constructor]. }
  unfold position_relation in *.
  destruct db' as [d|]; cbn in Hempty, Htracked.
  2:{ unfold S1.get_aircraft_position. rewrite Hw. by apply Hempty. }
  destruct (tbl_positions d) as [rows|] eqn:Hrows; cbn in Hempty, Htracked.
  2:{ unfold S1.get_aircraft_position. rewrite Hw.
      unfold connect_and_query, select_positions_page. rewrite Hconn, Hexec, Hrows.
      by apply Hempty. }
  change 0%Z with (Z.of_nat 0).
  rewrite (get_aircraft_position_page q w' d rows) by (done || lia).
  eexists. split; [done|].
  unfold limit_offset. rewrite Nat.mul_0_l, drop_0.
  assert (length (position_dict_of <$> merge_sort by_timestamp (filter (located icao) rows))
          = length tracked) as Hsame.
  { by rewrite <-Htracked, !length_fmap, merge_sort_Permutation. }
  rewrite take_ge by lia. split.
  - by rewrite merge_sort_Permutation.
  - apply Sorted_fmap with (R1 := by_timestamp); [done|].
    apply (Sorted_merge_sort by_timestamp).
Qed.

Lemma loaded_positions_of_aircraft_witness :
  ∃ rows, S1.get_aircraft_position ex_env ex_loaded_world "abc123" 1000 0 = Returned rows ∧
          rows ≡ₚ tracked_position
                    <$> filter (λ x : document * Obs.observation,
                                  Obs.hex x.2 = Some "abc123"%string ∧
                                  all_present x.1 x.2)
                          (store_observations ex_dir) ∧
          Sorted by_pd_timestamp rows.
Proof.
  apply (loaded_positions_of_aircraft ex_env ex_env ex_dir None ex_loaded ex_loaded_world
           "abc123" 1000 ex_load_run eq_refl ex_icaos_read_as_text
           ex_timestamps_read_as_integers eq_refl eq_refl eq_refl).
  split; [by vm_compute|unfold max_limit_value; lia].
Defined.
